(** * MyVisionBackend: the risk-adaptive login engine

    A shallow embedding of [handler.js] (signup, verifyEmail, resendOTP,
    login, verifyLoginOTP), [utils/cognitiveCheck.js] (the risk heuristics
    and the rate limiter) and the OTP helpers of [utils/emailService.js],
    followed by the properties of the login protocol. The protected route
    [getUser] of [handler.js] and the email-keyed [register] and [login]
    handlers over [models/user.js] are embedded as well.

    Conventions of the embedding.
    - A JavaScript string is a [string] of ASCII characters; the empty
      string also stands for an absent ([undefined]/[null]) string wherever
      the source only tests the value for truthiness.
    - An ISO-8601 timestamp is the number of milliseconds it denotes ([Z]);
      the clock is read once per request.
    - The DynamoDB table is the list of its items in scan order; [update]
      and [put] address items by their key [userId].
    - [pendingSessionData] holds the value that the stored JSON text encodes.
    - bcrypt, jsonwebtoken, ua-parser-js, geoip-lite, the mail transport and
      the trigonometry of the haversine formula are parameters. *)

From Stdlib Require Import ZArith List String Ascii Bool Lia.
From Stdlib Require Import QArith Qabs Qminmax.
Import ListNotations.

Close Scope Q_scope.
Open Scope string_scope.
Open Scope Z_scope.

(** ** JavaScript string primitives *)

Module JsString.

(** Truthiness of a string value. *)
Definition truthy (s : string) : bool :=
  match s with
  | EmptyString => false
  | String _ _ => true
  end.

(** [a || b] on strings. *)
Definition orElse (a b : string) : string :=
  if truthy a then a else b.

Definition lowerChar (c : ascii) : ascii :=
  let n := nat_of_ascii c in
  if ((65 <=? n) && (n <=? 90))%nat then ascii_of_nat (n + 32) else c.

(** [s.toLowerCase()]. *)
Fixpoint toLowerCase (s : string) : string :=
  match s with
  | EmptyString => EmptyString
  | String c r => String (lowerChar c) (toLowerCase r)
  end.

(** [s.split(sep)[0]]: the text before the first separator. *)
Fixpoint splitHead (sep : ascii) (s : string) : string :=
  match s with
  | EmptyString => EmptyString
  | String c r => if Ascii.eqb c sep then EmptyString else String c (splitHead sep r)
  end.

Fixpoint startsWith (s p : string) : bool :=
  match p, s with
  | EmptyString, _ => true
  | String _ _, EmptyString => false
  | String a p', String b s' => Ascii.eqb a b && startsWith s' p'
  end.

(** [s.includes(sub)]. *)
Fixpoint includes (s sub : string) : bool :=
  startsWith s sub ||
  match s with
  | EmptyString => false
  | String _ r => includes r sub
  end.

Definition isSpace (c : ascii) : bool :=
  let n := nat_of_ascii c in
  ((n =? 32) || ((9 <=? n) && (n <=? 13)))%nat.

Fixpoint trimStart (s : string) : string :=
  match s with
  | EmptyString => EmptyString
  | String c r => if isSpace c then trimStart r else s
  end.

Fixpoint trimEnd (s : string) : string :=
  match s with
  | EmptyString => EmptyString
  | String c r =>
      match trimEnd r with
      | EmptyString => if isSpace c then EmptyString else String c EmptyString
      | r' => String c r'
      end
  end.

(** [s.trim()]. *)
Definition trim (s : string) : string := trimEnd (trimStart s).

End JsString.

(** ** Data model *)

(** A location as [getIPLocation] builds it and as [isLocationSuspicious]
    reads it ([lat]/[lon] are read there and written nowhere). *)
Record location := mkLocation {
  country : string;
  region : string;
  city : string;
  timezone : option string;
  lat : option Q;
  lon : option Q
}.

Record deviceInfo := mkDevice {
  browser : string;
  os : string;
  deviceType : string;      (* the [device] key *)
  deviceModel : string
}.

(** An entry of [loginHistory]. *)
Record loginEntry := mkEntry {
  timestamp : Z;
  entryIP : string;
  entryLocation : location;
  entryDevice : deviceInfo
}.

(** The object serialised into [pendingSessionData]. *)
Record sessionData := mkSession {
  sessionIP : string;
  sessionLocation : location;
  sessionDevice : deviceInfo;
  sessionTimestamp : Z
}.

(** An item of the users table. *)
Record user := mkUser {
  userId : string;
  email : string;
  passwordHash : string;
  isEmailVerified : bool;
  otp : option string;
  otpExpiry : option Z;
  otpAttempts : option Z;
  createdAt : Z;
  updatedAt : Z;
  loginAttempts : list Z;
  lastLoginTime : option Z;
  lastLoginIP : string;
  lastLoginLocation : option location;
  lastLoginDevice : option deviceInfo;
  loginHistory : list loginEntry;
  loginOTP : option string;
  loginOTPExpiry : option Z;
  loginOTPAttempts : option Z;
  pendingSessionId : option string;
  pendingSessionData : option sessionData
}.

(** The Lambda event: the fields of the JSON body and the request context
    that the handlers read. *)
Record event := mkEvent {
  bodyEmail : string;
  bodyPassword : string;
  bodyOtp : string;
  bodySessionId : string;
  httpSourceIp : string;          (* requestContext.http.sourceIp *)
  identitySourceIp : string;      (* requestContext.identity.sourceIp *)
  xForwardedForLower : string;    (* headers['x-forwarded-for'] *)
  xForwardedForUpper : string;    (* headers['X-Forwarded-For'] *)
  userAgentLower : string;        (* headers['user-agent'] *)
  userAgentUpper : string         (* headers['User-Agent'] *)
}.

(** What [geoip.lookup] returns: [ll] is the coordinate pair. *)
Record geoRecord := mkGeo {
  geoCountry : string;
  geoRegion : string;
  geoCity : string;
  geoTimezone : string;
  geoLL : option (Q * Q)
}.

(** What [UAParser(..).getResult()] returns. *)
Record uaResult := mkUA {
  uaBrowserName : string;
  uaBrowserVersion : string;
  uaOsName : string;
  uaOsVersion : string;
  uaDeviceType : string;
  uaDeviceModel : string
}.

(** The values a handler draws from its environment while it runs. *)
Record draws := mkDraws {
  now : Z;                 (* Date.now() *)
  newOTP : string;         (* generateOTP() *)
  newUUID : string;        (* uuidv4() *)
  mailDelivered : bool     (* the [success] flag of the mail helper *)
}.

(** Security constants of [handler.js]. *)
Definition MAX_OTP_ATTEMPTS : Z := 3.
Definition RATE_LIMIT_WINDOW_MINUTES : Z := 15.
Definition MAX_LOGIN_ATTEMPTS : Z := 5.

(** ** utils/emailService.js *)

Definition generateOTPExpiry (d : draws) : Z := now d + 5 * 60 * 1000.

Definition isOTPExpired (d : draws) (otpExpiry : option Z) : bool :=
  match otpExpiry with
  | None => true
  | Some e => e <? now d
  end.

(** ** External collaborators *)

(** The libraries and services the handlers call. *)
Class Services := mkServices {
  (** the [geoip-lite] module, when it could be loaded *)
  geoip : option (string -> option geoRecord);
  (** [new UAParser(ua).getResult()] *)
  UAParser : string -> uaResult;
  (** the haversine formula of [calculateDistance] (floating-point
      trigonometry), in kilometres *)
  calculateDistance : Q -> Q -> Q -> Q -> Q;
  (** offset of the local time zone, for [Date.prototype.getHours] *)
  tzOffset : Z;
  (** [bcrypt.compare password hash] *)
  bcryptCompare : string -> string -> bool;
  (** [bcrypt.hash password 10] *)
  bcryptHash : string -> string;
  (** [jwt.sign {userId, email} JWT_SECRET {expiresIn: "1h"}] *)
  jwtSign : string -> string -> string
}.

(** ** utils/cognitiveCheck.js *)

Section Engine.

Context {services : Services}.

Import JsString.

Definition extractIPAddress (ev : event) : string :=
  orElse (httpSourceIp ev)
    (orElse (identitySourceIp ev)
       (orElse (splitHead "," (xForwardedForLower ev))
          (orElse (splitHead "," (xForwardedForUpper ev)) "unknown"))).

Definition unknownLocation : location :=
  mkLocation "unknown" "unknown" "unknown" None None None.

Definition getIPLocation (ip : string) : location :=
  if negb (truthy ip) || String.eqb ip "unknown" then unknownLocation
  else
    match geoip with
    | None => unknownLocation
    | Some lookup =>
        match lookup ip with
        | None => unknownLocation
        | Some geo =>
            {| country := orElse (geoCountry geo) "unknown";
               region := orElse (geoRegion geo) "unknown";
               city := orElse (geoCity geo) "unknown";
               timezone := Some (orElse (geoTimezone geo) "unknown");
               lat := None;
               lon := None |}
        end
    end.

Definition getDeviceFingerprint (ev : event) : deviceInfo :=
  let userAgent := orElse (userAgentLower ev) (orElse (userAgentUpper ev) "unknown") in
  let result := UAParser userAgent in
  {| browser := trim (orElse (uaBrowserName result) "unknown" ++ " " ++ uaBrowserVersion result);
     os := trim (orElse (uaOsName result) "unknown" ++ " " ++ uaOsVersion result);
     deviceType := orElse (uaDeviceType result) "desktop";
     deviceModel := orElse (uaDeviceModel result) "unknown" |}.

(** Truthiness of a numeric property that may be absent. *)
Definition truthyNum (x : option Q) : bool :=
  match x with
  | None => false
  | Some q => negb (Qeq_bool q 0)
  end.

Definition Qgtb (a b : Q) : bool := negb (Qle_bool a b).

Definition isLocationSuspicious (currentLocation : location)
    (lastLocation : option location) (threshold : Q) : bool :=
  match lastLocation with
  | None => false
  | Some lastLoc =>
      if String.eqb (country lastLoc) "unknown" then false
      else if negb (String.eqb (country currentLocation) (country lastLoc)) then true
      else if truthyNum (lat currentLocation) && truthyNum (lat lastLoc) then
        match lat currentLocation, lon currentLocation, lat lastLoc, lon lastLoc with
        | Some lat1, Some lon1, Some lat2, Some lon2 =>
            Qgtb (calculateDistance lat1 lon1 lat2 lon2) threshold
        | _, _, _, _ => false   (* a missing longitude makes the distance NaN *)
        end
      else negb (String.eqb (region currentLocation) (region lastLoc))
  end.

(** The two negated [includes] tests of [isDeviceSuspicious]. *)
Definition tokenChanged (current last : string) : bool :=
  negb (includes (toLowerCase current) (splitHead " " (toLowerCase last)))
  && negb (includes (toLowerCase last) (splitHead " " (toLowerCase current))).

Definition isDeviceSuspicious (currentDevice : deviceInfo)
    (lastDevice : option deviceInfo) : bool :=
  match lastDevice with
  | None => false
  | Some lastDev =>
      if negb (truthy (browser lastDev)) then false
      else
        let browserChanged := tokenChanged (browser currentDevice) (browser lastDev) in
        let osChanged := tokenChanged (os currentDevice) (os lastDev) in
        browserChanged || osChanged
  end.

(** [new Date(t).getHours()]. *)
Definition getHours (t : Z) : Z := ((t + tzOffset) / 3600000) mod 24.

Definition isTimeSuspicious (d : draws) (history : list loginEntry) : bool :=
  if Z.of_nat (List.length history) <? 3 then false
  else
    let currentHour := getHours (now d) in
    let loginHours := map (fun login => getHours (timestamp login)) history in
    let total := fold_left Z.add loginHours 0 in
    let count := Z.of_nat (List.length loginHours) in
    let avgHour := (inject_Z total / inject_Z count)%Q in
    let deviation := Qabs (inject_Z currentHour - avgHour)%Q in
    let normalizedDeviation := Qmin deviation (24 - deviation)%Q in
    Qgtb normalizedDeviation 6.

Record rateLimit := mkRateLimit {
  limited : bool;
  remainingAttempts : Z;
  recentAttempts : option Z
}.

(** [checkRateLimit]. The window start is a [Date]: the subtraction is the
    code's for every window whose start is a valid [Date], as that of
    [RATE_LIMIT_WINDOW_MINUTES] is. *)
Definition checkRateLimit (d : draws) (attempts : list Z)
    (windowMinutes maxAttempts : Z) : rateLimit :=
  match attempts with
  | [] => mkRateLimit false maxAttempts None
  | _ =>
      let windowStart := now d - windowMinutes * 60 * 1000 in
      let recent := filter (fun t => windowStart <? t) attempts in
      let n := Z.of_nat (List.length recent) in
      mkRateLimit (maxAttempts <=? n) (Z.max 0 (maxAttempts - n)) (Some n)
  end.

Record cognitiveCheck := mkCheck {
  locationSuspicious : bool;
  deviceSuspicious : bool;
  timeSuspicious : bool;
  reasons : list string;
  suspicious : bool;
  currentIP : string;
  currentLocation : location;
  currentDevice : deviceInfo
}.

Definition performCognitiveCheck (d : draws) (ev : event) (userProfile : user)
    : cognitiveCheck :=
  let ip := extractIPAddress ev in
  let loc := getIPLocation ip in
  let dev := getDeviceFingerprint ev in
  let locS :=
    if truthy (lastLoginIP userProfile) then
      match lastLoginLocation userProfile with
      | Some _ => isLocationSuspicious loc (lastLoginLocation userProfile) 500
      | None => false
      end
    else false in
  let devS :=
    match lastLoginDevice userProfile with
    | Some _ => isDeviceSuspicious dev (lastLoginDevice userProfile)
    | None => false
    end in
  let timeS :=
    if 3 <=? Z.of_nat (List.length (loginHistory userProfile))
    then isTimeSuspicious d (loginHistory userProfile)
    else false in
  {| locationSuspicious := locS;
     deviceSuspicious := devS;
     timeSuspicious := timeS;
     reasons := ((if locS then ["Login from new location"] else [])
                 ++ (if devS then ["Login from new device or browser"] else [])
                 ++ (if timeS then ["Login at unusual time"] else []))%list;
     suspicious := locS || devS || timeS;
     currentIP := ip;
     currentLocation := loc;
     currentDevice := dev |}.

(** ** The users table *)

(** [dynamo.scan] with a filter expression: the matching items, in scan
    order. The handlers read the one page that a scan call returns, which is
    every matching item as long as the table fits in a page. *)
Definition scan (p : user -> bool) (t : list user) : list user := filter p t.

(** [dynamo.update] of the item whose key is [key]. *)
Definition update (key : string) (f : user -> user) (t : list user) : list user :=
  map (fun u => if String.eqb (userId u) key then f u else u) t.

(** [dynamo.put]: replaces the item of the same key, or adds the item. *)
Fixpoint put (item : user) (t : list user) : list user :=
  match t with
  | [] => [item]
  | u :: r => if String.eqb (userId u) (userId item) then item :: r else u :: put item r
  end.

(** [dynamo.get]. *)
Definition get (key : string) (t : list user) : option user :=
  find (fun u => String.eqb (userId u) key) t.

Definition byEmail (e : string) (u : user) : bool := String.eqb (email u) e.

Definition bySession (sid : string) (u : user) : bool :=
  match pendingSessionId u with
  | Some s => String.eqb s sid
  | None => false
  end.

(** *** Update expressions *)

(** [SET otp = :otp, otpExpiry = :expiry, otpAttempts = :zero, updatedAt = :now] *)
Definition setSignupOTP (code : string) (expiry t0 : Z) (u : user) : user :=
  {| userId := userId u; email := email u; passwordHash := passwordHash u;
     isEmailVerified := isEmailVerified u;
     otp := Some code; otpExpiry := Some expiry; otpAttempts := Some 0;
     createdAt := createdAt u; updatedAt := t0;
     loginAttempts := loginAttempts u; lastLoginTime := lastLoginTime u;
     lastLoginIP := lastLoginIP u; lastLoginLocation := lastLoginLocation u;
     lastLoginDevice := lastLoginDevice u; loginHistory := loginHistory u;
     loginOTP := loginOTP u; loginOTPExpiry := loginOTPExpiry u;
     loginOTPAttempts := loginOTPAttempts u;
     pendingSessionId := pendingSessionId u;
     pendingSessionData := pendingSessionData u |}.

(** [SET otpAttempts = otpAttempts + :inc] *)
Definition incOtpAttempts (u : user) : user :=
  {| userId := userId u; email := email u; passwordHash := passwordHash u;
     isEmailVerified := isEmailVerified u;
     otp := otp u; otpExpiry := otpExpiry u;
     otpAttempts := option_map (fun a => a + 1) (otpAttempts u);
     createdAt := createdAt u; updatedAt := updatedAt u;
     loginAttempts := loginAttempts u; lastLoginTime := lastLoginTime u;
     lastLoginIP := lastLoginIP u; lastLoginLocation := lastLoginLocation u;
     lastLoginDevice := lastLoginDevice u; loginHistory := loginHistory u;
     loginOTP := loginOTP u; loginOTPExpiry := loginOTPExpiry u;
     loginOTPAttempts := loginOTPAttempts u;
     pendingSessionId := pendingSessionId u;
     pendingSessionData := pendingSessionData u |}.

(** [SET isEmailVerified = :verified, otp = :null, otpExpiry = :null,
    otpAttempts = :zero, updatedAt = :now] *)
Definition markVerified (t0 : Z) (u : user) : user :=
  {| userId := userId u; email := email u; passwordHash := passwordHash u;
     isEmailVerified := true;
     otp := None; otpExpiry := None; otpAttempts := Some 0;
     createdAt := createdAt u; updatedAt := t0;
     loginAttempts := loginAttempts u; lastLoginTime := lastLoginTime u;
     lastLoginIP := lastLoginIP u; lastLoginLocation := lastLoginLocation u;
     lastLoginDevice := lastLoginDevice u; loginHistory := loginHistory u;
     loginOTP := loginOTP u; loginOTPExpiry := loginOTPExpiry u;
     loginOTPAttempts := loginOTPAttempts u;
     pendingSessionId := pendingSessionId u;
     pendingSessionData := pendingSessionData u |}.

(** [SET loginAttempts = list_append(if_not_exists(loginAttempts, :empty), :attempt)] *)
Definition recordAttempt (t0 : Z) (u : user) : user :=
  {| userId := userId u; email := email u; passwordHash := passwordHash u;
     isEmailVerified := isEmailVerified u;
     otp := otp u; otpExpiry := otpExpiry u; otpAttempts := otpAttempts u;
     createdAt := createdAt u; updatedAt := updatedAt u;
     loginAttempts := (loginAttempts u ++ [t0])%list;
     lastLoginTime := lastLoginTime u;
     lastLoginIP := lastLoginIP u; lastLoginLocation := lastLoginLocation u;
     lastLoginDevice := lastLoginDevice u; loginHistory := loginHistory u;
     loginOTP := loginOTP u; loginOTPExpiry := loginOTPExpiry u;
     loginOTPAttempts := loginOTPAttempts u;
     pendingSessionId := pendingSessionId u;
     pendingSessionData := pendingSessionData u |}.

(** [SET loginOTP = :otp, loginOTPExpiry = :expiry, loginOTPAttempts = :zero,
    pendingSessionId = :sessionId, pendingSessionData = :sessionData,
    updatedAt = :now] *)
Definition storeStepUp (code : string) (expiry : Z) (sid : string)
    (sd : sessionData) (t0 : Z) (u : user) : user :=
  {| userId := userId u; email := email u; passwordHash := passwordHash u;
     isEmailVerified := isEmailVerified u;
     otp := otp u; otpExpiry := otpExpiry u; otpAttempts := otpAttempts u;
     createdAt := createdAt u; updatedAt := t0;
     loginAttempts := loginAttempts u; lastLoginTime := lastLoginTime u;
     lastLoginIP := lastLoginIP u; lastLoginLocation := lastLoginLocation u;
     lastLoginDevice := lastLoginDevice u; loginHistory := loginHistory u;
     loginOTP := Some code; loginOTPExpiry := Some expiry;
     loginOTPAttempts := Some 0;
     pendingSessionId := Some sid;
     pendingSessionData := Some sd |}.

(** [SET lastLoginTime = :time, lastLoginIP = :ip, lastLoginLocation = :location,
    lastLoginDevice = :device, loginHistory = :history, updatedAt = :now] *)
Definition storeLogin (t0 : Z) (ip : string) (loc : location) (dev : deviceInfo)
    (history : list loginEntry) (u : user) : user :=
  {| userId := userId u; email := email u; passwordHash := passwordHash u;
     isEmailVerified := isEmailVerified u;
     otp := otp u; otpExpiry := otpExpiry u; otpAttempts := otpAttempts u;
     createdAt := createdAt u; updatedAt := t0;
     loginAttempts := loginAttempts u; lastLoginTime := Some t0;
     lastLoginIP := ip; lastLoginLocation := Some loc;
     lastLoginDevice := Some dev; loginHistory := history;
     loginOTP := loginOTP u; loginOTPExpiry := loginOTPExpiry u;
     loginOTPAttempts := loginOTPAttempts u;
     pendingSessionId := pendingSessionId u;
     pendingSessionData := pendingSessionData u |}.

(** [SET loginOTPAttempts = loginOTPAttempts + :inc] *)
Definition incLoginOTPAttempts (u : user) : user :=
  {| userId := userId u; email := email u; passwordHash := passwordHash u;
     isEmailVerified := isEmailVerified u;
     otp := otp u; otpExpiry := otpExpiry u; otpAttempts := otpAttempts u;
     createdAt := createdAt u; updatedAt := updatedAt u;
     loginAttempts := loginAttempts u; lastLoginTime := lastLoginTime u;
     lastLoginIP := lastLoginIP u; lastLoginLocation := lastLoginLocation u;
     lastLoginDevice := lastLoginDevice u; loginHistory := loginHistory u;
     loginOTP := loginOTP u; loginOTPExpiry := loginOTPExpiry u;
     loginOTPAttempts := option_map (fun a => a + 1) (loginOTPAttempts u);
     pendingSessionId := pendingSessionId u;
     pendingSessionData := pendingSessionData u |}.

(** [SET lastLoginTime = :time, lastLoginIP = :ip, lastLoginLocation = :location,
    lastLoginDevice = :device, loginHistory = :history, loginOTP = :null,
    loginOTPExpiry = :null, loginOTPAttempts = :zero, pendingSessionId = :null,
    pendingSessionData = :null, updatedAt = :now] *)
Definition commitStepUp (t0 : Z) (ip : string) (loc : location) (dev : deviceInfo)
    (history : list loginEntry) (u : user) : user :=
  {| userId := userId u; email := email u; passwordHash := passwordHash u;
     isEmailVerified := isEmailVerified u;
     otp := otp u; otpExpiry := otpExpiry u; otpAttempts := otpAttempts u;
     createdAt := createdAt u; updatedAt := t0;
     loginAttempts := loginAttempts u; lastLoginTime := Some t0;
     lastLoginIP := ip; lastLoginLocation := Some loc;
     lastLoginDevice := Some dev; loginHistory := history;
     loginOTP := None; loginOTPExpiry := None;
     loginOTPAttempts := Some 0;
     pendingSessionId := None;
     pendingSessionData := None |}.

(** ** handler.js *)

(** The response of a handler: its kind and the payload that matters. *)
Inductive outcome :=
| MissingFields                       (* 400, "... required" *)
| InvalidEmailFormat                  (* 400 *)
| PasswordTooShort                    (* 400 *)
| AccountCreated (uid : string) (isNewUser : bool) (otpInBody : option string) (* 201 *)
| UserNotFound                        (* 404, "User not found" *)
| AlreadyVerified                     (* 400, "Email already verified" *)
| OtpSent                             (* 200, "New OTP sent to your email" *)
| MailFailed                          (* 500, "Failed to send OTP email. ..." *)
| OtpMaxAttemptsExceeded              (* 429 *)
| OtpExpired                          (* 400, "OTP has expired. ..." *)
| OtpInvalid (attemptsRemaining : Z)  (* 400, "Invalid OTP" *)
| EmailVerified (token : string)      (* 200 *)
| InvalidCredentials                  (* 401 *)
| RateLimited (retryAfter : Z)        (* 429 *)
| EmailUnverified                     (* 403 *)
| StepUpRequired (sessionId : string) (reason : list string) (* 200, requiresOTP *)
| Authenticated (token : string)      (* 200, login completed *)
| InvalidSession                      (* 404 *)
| InternalError.                      (* 500, the catch block *)

Definition statusCode (o : outcome) : Z :=
  match o with
  | MissingFields | InvalidEmailFormat | PasswordTooShort => 400
  | AccountCreated _ _ _ => 201
  | UserNotFound | InvalidSession => 404
  | AlreadyVerified | OtpExpired | OtpInvalid _ => 400
  | OtpSent | EmailVerified _ | StepUpRequired _ _ | Authenticated _ => 200
  | OtpMaxAttemptsExceeded | RateLimited _ => 429
  | InvalidCredentials => 401
  | EmailUnverified => 403
  | MailFailed | InternalError => 500
  end.

(** The token a response carries, if any. *)
Definition issuedToken (o : outcome) : option string :=
  match o with
  | EmailVerified tok | Authenticated tok => Some tok
  | _ => None
  end.

(** [stored >= MAX_OTP_ATTEMPTS]; an absent counter compares false. *)
Definition attemptsExhausted (stored : option Z) : bool :=
  match stored with
  | Some a => MAX_OTP_ATTEMPTS <=? a
  | None => false
  end.

(** [stored !== submitted] is false. *)
Definition sameCode (stored : option string) (submitted : string) : bool :=
  match stored with
  | Some c => String.eqb c submitted
  | None => false
  end.

(** [list.slice(-n)]. *)
Definition sliceLast (n : nat) {A : Type} (l : list A) : list A :=
  skipn (List.length l - n) l.

(** [/^[^\s@]+@[^\s@]+\.[^\s@]+$/.test(s)] *)
Fixpoint afterAt (s : string) : option (string * string) :=
  match s with
  | EmptyString => None
  | String c r =>
      if Ascii.eqb c "@" then Some (EmptyString, r)
      else match afterAt r with
           | Some (a, b) => Some (String c a, b)
           | None => None
           end
  end.

Fixpoint allPlain (s : string) : bool :=
  match s with
  | EmptyString => true
  | String c r => negb (isSpace c) && negb (Ascii.eqb c "@") && allPlain r
  end.

Fixpoint dotThenMore (s : string) : bool :=
  match s with
  | EmptyString => false
  | String c r => (Ascii.eqb c "." && truthy r) || dotThenMore r
  end.

Definition emailRegexTest (s : string) : bool :=
  match afterAt s with
  | Some (localPart, domain) =>
      truthy localPart && allPlain localPart && allPlain domain
      && match domain with
         | EmptyString => false
         | String _ r => dotThenMore r
         end
  | None => false
  end.

(** [module.exports.signup] *)
Definition signup (d : draws) (ev : event) (t : list user) : list user * outcome :=
  if negb (truthy (bodyEmail ev)) || negb (truthy (bodyPassword ev)) then (t, MissingFields)
  else if negb (emailRegexTest (bodyEmail ev)) then (t, InvalidEmailFormat)
  else if (String.length (bodyPassword ev) <? 8)%nat then (t, PasswordTooShort)
  else
    let existingUser := scan (byEmail (bodyEmail ev)) t in
    let uid := match existingUser with
               | u :: _ => userId u
               | [] => newUUID d
               end in
    let isUpdatingExisting := match existingUser with
                              | _ :: _ => true
                              | [] => false
                              end in
    let code := newOTP d in
    let item :=
      {| userId := uid; email := bodyEmail ev;
         passwordHash := bcryptHash (bodyPassword ev);
         isEmailVerified := false;
         otp := Some code; otpExpiry := Some (generateOTPExpiry d);
         otpAttempts := Some 0;
         createdAt := match existingUser with
                      | u :: _ => createdAt u
                      | [] => now d
                      end;
         updatedAt := now d;
         loginAttempts := []; lastLoginTime := None; lastLoginIP := "";
         lastLoginLocation := None; lastLoginDevice := None;
         loginHistory := [];
         loginOTP := None; loginOTPExpiry := None; loginOTPAttempts := None;
         pendingSessionId := None; pendingSessionData := None |} in
    (put item t,
     AccountCreated uid (negb isUpdatingExisting)
       (if mailDelivered d then None else Some code)).

(** [module.exports.resendOTP] *)
Definition resendOTP (d : draws) (ev : event) (t : list user) : list user * outcome :=
  if negb (truthy (bodyEmail ev)) then (t, MissingFields)
  else
    match scan (byEmail (bodyEmail ev)) t with
    | [] => (t, UserNotFound)
    | u :: _ =>
        if isEmailVerified u then (t, AlreadyVerified)
        else
          let t1 := update (userId u)
                      (setSignupOTP (newOTP d) (generateOTPExpiry d) (now d)) t in
          if mailDelivered d then (t1, OtpSent) else (t1, MailFailed)
    end.

(** [module.exports.verifyEmail] *)
Definition verifyEmail (d : draws) (ev : event) (t : list user) : list user * outcome :=
  if negb (truthy (bodyEmail ev)) || negb (truthy (bodyOtp ev)) then (t, MissingFields)
  else
    match scan (byEmail (bodyEmail ev)) t with
    | [] => (t, UserNotFound)
    | u :: _ =>
        if isEmailVerified u then (t, AlreadyVerified)
        else if attemptsExhausted (otpAttempts u) then (t, OtpMaxAttemptsExceeded)
        else if isOTPExpired d (otpExpiry u) then (t, OtpExpired)
        else if negb (sameCode (otp u) (bodyOtp ev)) then
          match otpAttempts u with
          | Some a =>
              (update (userId u) incOtpAttempts t,
               OtpInvalid (MAX_OTP_ATTEMPTS - (a + 1)))
          | None => (t, InternalError)   (* the update expression is rejected *)
          end
        else
          (update (userId u) (markVerified (now d)) t,
           EmailVerified (jwtSign (userId u) (email u)))
    end.

(** [module.exports.login] *)
Definition login (d : draws) (ev : event) (t : list user) : list user * outcome :=
  if negb (truthy (bodyEmail ev)) || negb (truthy (bodyPassword ev)) then (t, MissingFields)
  else
    match scan (byEmail (bodyEmail ev)) t with
    | [] => (t, InvalidCredentials)
    | u :: _ =>
        let rateLimitCheck :=
          checkRateLimit d (loginAttempts u)
            RATE_LIMIT_WINDOW_MINUTES MAX_LOGIN_ATTEMPTS in
        if limited rateLimitCheck
        then (t, RateLimited (RATE_LIMIT_WINDOW_MINUTES * 60))
        else
          let t1 := update (userId u) (recordAttempt (now d)) t in
          if negb (bcryptCompare (bodyPassword ev) (passwordHash u))
          then (t1, InvalidCredentials)
          else if negb (isEmailVerified u) then (t1, EmailUnverified)
          else
            let check := performCognitiveCheck d ev u in
            if suspicious check then
              let sid := newUUID d in
              let data := {| sessionIP := currentIP check;
                             sessionLocation := currentLocation check;
                             sessionDevice := currentDevice check;
                             sessionTimestamp := now d |} in
              (update (userId u)
                 (storeStepUp (newOTP d) (generateOTPExpiry d) sid data (now d)) t1,
               StepUpRequired sid (reasons check))
            else
              let entry := {| timestamp := now d;
                              entryIP := currentIP check;
                              entryLocation := currentLocation check;
                              entryDevice := currentDevice check |} in
              let recentHistory := sliceLast 10 (loginHistory u ++ [entry])%list in
              (update (userId u)
                 (storeLogin (now d) (currentIP check) (currentLocation check)
                    (currentDevice check) recentHistory) t1,
               Authenticated (jwtSign (userId u) (email u)))
    end.

(** [module.exports.verifyLoginOTP] *)
Definition verifyLoginOTP (d : draws) (ev : event) (t : list user) : list user * outcome :=
  if negb (truthy (bodySessionId ev)) || negb (truthy (bodyOtp ev)) then (t, MissingFields)
  else
    match scan (bySession (bodySessionId ev)) t with
    | [] => (t, InvalidSession)
    | u :: _ =>
        if attemptsExhausted (loginOTPAttempts u) then (t, OtpMaxAttemptsExceeded)
        else if isOTPExpired d (loginOTPExpiry u) then (t, OtpExpired)
        else if negb (sameCode (loginOTP u) (bodyOtp ev)) then
          match loginOTPAttempts u with
          | Some a =>
              (update (userId u) incLoginOTPAttempts t,
               OtpInvalid (MAX_OTP_ATTEMPTS - (a + 1)))
          | None => (t, InternalError)   (* the update expression is rejected *)
          end
        else
          match pendingSessionData u with
          | None => (t, InternalError)   (* reading [ip] of [null] throws *)
          | Some data =>
              let entry := {| timestamp := now d;
                              entryIP := sessionIP data;
                              entryLocation := sessionLocation data;
                              entryDevice := sessionDevice data |} in
              let recentHistory := sliceLast 10 (loginHistory u ++ [entry])%list in
              (update (userId u)
                 (commitStepUp (now d) (sessionIP data) (sessionLocation data)
                    (sessionDevice data) recentHistory) t,
               Authenticated (jwtSign (userId u) (email u)))
          end
    end.

(** *** Requests and runs *)

Inductive request :=
| Signup | ResendOTP | VerifyEmail | Login | VerifyLoginOTP.

Definition handle (r : request) : draws -> event -> list user -> list user * outcome :=
  match r with
  | Signup => signup
  | ResendOTP => resendOTP
  | VerifyEmail => verifyEmail
  | Login => login
  | VerifyLoginOTP => verifyLoginOTP
  end.

(** The table after a sequence of requests, served one after the other. *)
Fixpoint run (rs : list (request * draws * event)) (t : list user) : list user :=
  match rs with
  | [] => t
  | (r, d, ev) :: rest => run rest (fst (handle r d ev t))
  end.

(** The tables the service can reach from the empty table. *)
Definition reachable (t : list user) : Prop := exists rs, t = run rs [].

(** *** The protected route *)

(** An entry of [Object.entries(headers)] whose key is [name] in some
    letter case. *)
Definition headerIs (name : string) (entry : string * string) : bool :=
  truthy (fst entry) && String.eqb (toLowerCase (fst entry)) name.

Definition getAuthorizationHeader (headers : list (string * string)) : string :=
  match find (headerIs "authorization") headers with
  | None => ""
  | Some entry => snd entry
  end.

(** The text before the first white space, and the text from it on. *)
Fixpoint wordHead (s : string) : string :=
  match s with
  | EmptyString => EmptyString
  | String c r => if isSpace c then EmptyString else String c (wordHead r)
  end.

Fixpoint wordTail (s : string) : string :=
  match s with
  | EmptyString => EmptyString
  | String c r => if isSpace c then s else wordTail r
  end.

(** [const [scheme, token] = s.split(/\s+/)], an absent token being empty. *)
Definition schemeAndToken (s : string) : string * string :=
  (wordHead s, wordHead (trimStart (wordTail s))).

Inductive userResponse :=
| MissingAuthorization          (* 401, "Missing Authorization header" *)
| InvalidAuthorizationFormat    (* 401, "Invalid Authorization format" *)
| InvalidToken                  (* 403, "Invalid or expired token" *)
| NoSuchUser                    (* 404, "User not found" *)
| UserFetched (data : user).    (* 200, "User fetched successfully" *)

(** [module.exports.getUser]; [jwtVerify] is [jwt.verify(token, JWT_SECRET)]
    followed by the read of [userId] in the decoded payload, [None] when
    the verification throws. *)
Definition getUser (jwtVerify : string -> option string)
    (headers : list (string * string)) (t : list user) : userResponse :=
  let authHeader := getAuthorizationHeader headers in
  if negb (truthy authHeader) then MissingAuthorization
  else
    let (scheme, token) := schemeAndToken (trim authHeader) in
    if negb (truthy token) || negb (String.eqb (toLowerCase scheme) "bearer")
    then InvalidAuthorizationFormat
    else
      match jwtVerify token with
      | None => InvalidToken
      | Some uid =>
          match get uid t with
          | None => NoSuchUser
          | Some item => UserFetched item
          end
      end.

(** Strings without white space, and strings of white space. *)
Fixpoint noSpace (s : string) : bool :=
  match s with
  | EmptyString => true
  | String c r => negb (isSpace c) && noSpace r
  end.

Fixpoint allSpace (s : string) : bool :=
  match s with
  | EmptyString => true
  | String c r => isSpace c && allSpace r
  end.

(** *** Notions the properties are stated with *)

(** Items are addressed by a key: no two items share a [userId]. *)
Definition keysUnique (t : list user) : Prop := NoDup (map userId t).

(** The number of recorded attempts later than the start of the window. *)
Definition attemptsInWindow (d : draws) (windowMinutes : Z) (attempts : list Z) : Z :=
  Z.of_nat (List.length
              (filter (fun a => now d - windowMinutes * 60 * 1000 <? a) attempts)).

(** An expiry that is absent or earlier than the current time. *)
Definition expiredAt (d : draws) (expiry : option Z) : Prop :=
  expiry = None \/ exists e, expiry = Some e /\ e < now d.

(** The mutual leading-token test of the device check on one property. *)
Definition tokensMatch (current last : string) : Prop :=
  includes (toLowerCase current) (splitHead " " (toLowerCase last)) = true
  \/ includes (toLowerCase last) (splitHead " " (toLowerCase current)) = true.

(** A counter that is absent or between 0 and the maximum. *)
Definition counterBounded (c : option Z) : Prop :=
  match c with
  | Some a => 0 <= a <= MAX_OTP_ATTEMPTS
  | None => True
  end.

(** What every stored item satisfies. *)
Definition userOk (u : user) : Prop :=
  counterBounded (otpAttempts u)
  /\ counterBounded (loginOTPAttempts u)
  /\ (isEmailVerified u = true -> otpAttempts u = Some 0).

Definition tableOk (t : list user) : Prop :=
  keysUnique t /\ Forall userOk t.

(** No two items share an email. *)
Definition emailsUnique (t : list user) : Prop := NoDup (map email t).

(** Who an item is: its key, its email, its credential and its creation
    time. *)
Definition identityOf (u : user) : string * string * string * Z :=
  (userId u, email u, passwordHash u, createdAt u).

(** What a completed login leaves in an item. *)
Definition loginRecordOf (u : user)
    : list loginEntry * option Z * string * option location * option deviceInfo :=
  (loginHistory u, lastLoginTime u, lastLoginIP u, lastLoginLocation u,
   lastLoginDevice u).

(** The table a handler other than [signup] returns is the table it got
    with one item updated; the update keeps the identity of the item, and
    its login record too unless the answer is [Authenticated]. *)
Definition updateOf (r : request) (d : draws) (ev : event) (t : list user) : Prop :=
  exists k f,
    fst (handle r d ev t) = update k f t
    /\ (forall v, identityOf (f v) = identityOf v)
    /\ ((forall tok, snd (handle r d ev t) <> Authenticated tok) ->
        forall v, loginRecordOf (f v) = loginRecordOf v).

End Engine.

(** ** The email-keyed handlers

    [handlers/auth/register.js] and [handlers/auth/login.js] over
    [models/user.js]: a table keyed by email, written with a conditional
    put. *)

Module Legacy.

Import JsString.

Record account := mkAccount {
  accountEmail : string;
  hashedPassword : string;
  accountCreatedAt : Z;
  accountUpdatedAt : Z
}.

(** The environment of the handlers. *)
Record config := mkConfig {
  tableConfigured : bool;                (* DYNAMODB_TABLE is set *)
  secretConfigured : bool;               (* JWT_SECRET is set *)
  hash : string -> string;               (* bcrypt.hash(password, 12) *)
  compare : string -> string -> bool;    (* bcrypt.compare *)
  sign : string -> string                (* jwt.sign({sub: email, email}) *)
}.

(** The result of a call that may throw. *)
Inductive attempt (A : Type) :=
| Returned (a : A)
| ConditionalCheckFailed
| Threw.
Arguments Returned {A} a.
Arguments ConditionalCheckFailed {A}.
Arguments Threw {A}.

Definition hasEmail (e : string) (a : account) : bool := String.eqb (accountEmail a) e.

(** [getUserByEmail]: [dynamo.get] by the key [email]. *)
Definition getUserByEmail (cfg : config) (e : string) (t : list account)
    : attempt (option account) :=
  if negb (tableConfigured cfg) then Threw
  else Returned (find (hasEmail e) t).

(** [createUser]: [dynamo.put] under [attribute_not_exists(email)]. *)
Definition createUser (cfg : config) (t0 : Z) (e digest : string) (t : list account)
    : attempt (list account) :=
  if negb (tableConfigured cfg) then Threw
  else
    match find (hasEmail e) t with
    | Some _ => ConditionalCheckFailed
    | None => Returned (t ++ [mkAccount e digest t0 t0])%list
    end.

Inductive response :=
| InvalidPayload              (* 400, "Invalid request payload" *)
| FieldsRequired              (* 400, "Email and password are required" *)
| Registered                  (* 201 *)
| AlreadyExists               (* 409, "User already exists" *)
| InvalidEmailOrPassword      (* 401 *)
| Token (token : string)      (* 200 *)
| Failed.                     (* 500 *)

(** [exports.register]; [body] is what [parseBody] returns. *)
Definition register (cfg : config) (t0 : Z) (body : option (string * string))
    (t : list account) : list account * response :=
  match body with
  | None => (t, InvalidPayload)
  | Some (e, password) =>
      if negb (truthy e) || negb (truthy password) then (t, FieldsRequired)
      else
        match getUserByEmail cfg e t with
        | Returned (Some _) => (t, AlreadyExists)
        | Returned None =>
            match createUser cfg t0 e (hash cfg password) t with
            | Returned t' => (t', Registered)
            | ConditionalCheckFailed => (t, AlreadyExists)
            | Threw => (t, Failed)
            end
        | ConditionalCheckFailed => (t, AlreadyExists)
        | Threw => (t, Failed)
        end
  end.

(** [exports.login] of [handlers/auth/login.js]. *)
Definition login (cfg : config) (body : option (string * string))
    (t : list account) : response :=
  match body with
  | None => InvalidPayload
  | Some (e, password) =>
      if negb (truthy e) || negb (truthy password) then FieldsRequired
      else
        match getUserByEmail cfg e t with
        | Returned (Some a) =>
            if negb (truthy (hashedPassword a)) then InvalidEmailOrPassword
            else if negb (compare cfg password (hashedPassword a))
            then InvalidEmailOrPassword
            else if negb (secretConfigured cfg) then Failed
            else Token (sign cfg (accountEmail a))
        | Returned None => InvalidEmailOrPassword
        | _ => Failed
        end
  end.

End Legacy.

(** ** Sample data

    Concrete collaborators, users and requests on which the handlers are
    evaluated. *)

Module Sample.

Definition usGeo : geoRecord :=
  mkGeo "US" "CA" "Mountain View" "America/Los_Angeles"
    (Some (inject_Z 37, inject_Z (-122))).
Definition frGeo : geoRecord :=
  mkGeo "FR" "IDF" "Paris" "Europe/Paris" (Some (inject_Z 48, inject_Z 2)).

Definition lookup (ip : string) : option geoRecord :=
  if String.eqb ip "8.8.8.8" then Some usGeo
  else if String.eqb ip "1.1.1.1" then Some frGeo
  else None.

Definition parseUA (ua : string) : uaResult :=
  if String.eqb ua "chrome-on-windows" then mkUA "Chrome" "120.0" "Windows" "10" "" ""
  else if String.eqb ua "firefox-on-windows" then mkUA "Firefox" "115.0" "Windows" "10" "" ""
  else if String.eqb ua "safari-on-ios" then mkUA "Mobile Safari" "17.1" "iOS" "17.1" "mobile" "iPhone"
  else mkUA "" "" "" "" "" "".

Definition services : Services :=
  {| geoip := Some lookup;
     UAParser := parseUA;
     calculateDistance := fun _ _ _ _ => inject_Z 0;
     tzOffset := 0;
     bcryptCompare := fun password digest => String.eqb digest ("$2a$10$" ++ password);
     bcryptHash := fun password => "$2a$10$" ++ password;
     jwtSign := fun uid mail => "jwt." ++ uid ++ "." ++ mail |}.

Definition usLocation : location :=
  mkLocation "US" "CA" "Mountain View" (Some "America/Los_Angeles") None None.
Definition frLocation : location :=
  mkLocation "FR" "IDF" "Paris" (Some "Europe/Paris") None None.
Definition chromeWindows : deviceInfo := mkDevice "Chrome 120.0" "Windows 10" "desktop" "unknown".
Definition firefoxWindows : deviceInfo := mkDevice "Firefox 115.0" "Windows 10" "desktop" "unknown".

(** A verified account that has never logged in. *)
Definition alice : user :=
  {| userId := "u-1"; email := "alice@example.com";
     passwordHash := "$2a$10$correct horse";
     isEmailVerified := true;
     otp := None; otpExpiry := None; otpAttempts := Some 0;
     createdAt := 1000; updatedAt := 2000;
     loginAttempts := []; lastLoginTime := None; lastLoginIP := "";
     lastLoginLocation := None; lastLoginDevice := None; loginHistory := [];
     loginOTP := None; loginOTPExpiry := None; loginOTPAttempts := None;
     pendingSessionId := None; pendingSessionData := None |}.

(** The clock of the samples: 20 minutes after [t0]. *)
Definition t0 : Z := 1700000000000.
Definition at20min : draws := mkDraws (t0 + 1200000) "654321" "sid-new" true.

Definition loginRequest (password ip ua : string) : event :=
  mkEvent "alice@example.com" password "" "" ip "" "" "" ua "".

Definition otpRequest (sid code ip ua : string) : event :=
  mkEvent "" "" code sid ip "" "" "" ua "".

Definition verifyRequest (code : string) : event :=
  mkEvent "alice@example.com" "" code "" "" "" "" "" "" "".

#[local] Existing Instance services.

(** [alice] with five attempts in the last five minutes. *)
Definition limitedAlice : user :=
  {| userId := "u-1"; email := "alice@example.com";
     passwordHash := "$2a$10$correct horse";
     isEmailVerified := true;
     otp := None; otpExpiry := None; otpAttempts := Some 0;
     createdAt := 1000; updatedAt := 2000;
     loginAttempts := [t0 + 900000; t0 + 960000; t0 + 1020000;
                       t0 + 1080000; t0 + 1140000];
     lastLoginTime := None; lastLoginIP := "";
     lastLoginLocation := None; lastLoginDevice := None; loginHistory := [];
     loginOTP := None; loginOTPExpiry := None; loginOTPAttempts := None;
     pendingSessionId := None; pendingSessionData := None |}.

Definition visit (k : Z) : loginEntry :=
  mkEntry (t0 - k * 86400000) "8.8.8.8" usLocation chromeWindows.

(** [alice] after ten logins from Mountain View, one a day at the same hour. *)
Definition returningAlice : user :=
  {| userId := "u-1"; email := "alice@example.com";
     passwordHash := "$2a$10$correct horse";
     isEmailVerified := true;
     otp := None; otpExpiry := None; otpAttempts := Some 0;
     createdAt := 1000; updatedAt := t0 - 86400000;
     loginAttempts := [t0 - 86400000];
     lastLoginTime := Some (t0 - 86400000); lastLoginIP := "8.8.8.8";
     lastLoginLocation := Some usLocation;
     lastLoginDevice := Some chromeWindows;
     loginHistory := map visit [10; 9; 8; 7; 6; 5; 4; 3; 2; 1];
     loginOTP := None; loginOTPExpiry := None; loginOTPAttempts := None;
     pendingSessionId := None; pendingSessionData := None |}.

Definition at21min : draws := mkDraws (t0 + 1260000) "777777" "sid-later" true.

Definition signupRequest : event :=
  mkEvent "alice@example.com" "correct horse" "" "" "8.8.8.8" "" "" ""
    "chrome-on-windows" "".

Definition clock (ms : Z) (code uuid : string) : draws :=
  mkDraws (t0 + ms) code uuid true.

(** A signup followed by three wrong verification codes. *)
Definition lockedSignup : list user :=
  run [ (Signup, clock 0 "123456" "u-1", signupRequest);
        (VerifyEmail, clock 1000 "" "", verifyRequest "000000");
        (VerifyEmail, clock 2000 "" "", verifyRequest "000001");
        (VerifyEmail, clock 3000 "" "", verifyRequest "000002") ] [].

(** A signup, its verification, a first login from Mountain View, a login
    from Paris that asks for a step-up, and three wrong step-up codes. *)
Definition lockedStepUp : list user :=
  run [ (Signup, clock 0 "123456" "u-1", signupRequest);
        (VerifyEmail, clock 1000 "" "", verifyRequest "123456");
        (Login, clock 2000 "" "", loginRequest "correct horse" "8.8.8.8" "chrome-on-windows");
        (Login, clock 3000 "654321" "sid-1",
           loginRequest "correct horse" "1.1.1.1" "chrome-on-windows");
        (VerifyLoginOTP, clock 4000 "" "", otpRequest "sid-1" "000000" "1.1.1.1" "chrome-on-windows");
        (VerifyLoginOTP, clock 5000 "" "", otpRequest "sid-1" "000001" "1.1.1.1" "chrome-on-windows");
        (VerifyLoginOTP, clock 6000 "" "", otpRequest "sid-1" "000002" "1.1.1.1" "chrome-on-windows") ] [].

(** The same story with one wrong step-up code only. *)
Definition waitingStepUp : list user :=
  run [ (Signup, clock 0 "123456" "u-1", signupRequest);
        (VerifyEmail, clock 1000 "" "", verifyRequest "123456");
        (Login, clock 2000 "" "", loginRequest "correct horse" "8.8.8.8" "chrome-on-windows");
        (Login, clock 3000 "654321" "sid-1",
           loginRequest "correct horse" "1.1.1.1" "chrome-on-windows");
        (VerifyLoginOTP, clock 4000 "" "", otpRequest "sid-1" "000000" "1.1.1.1" "chrome-on-windows") ] [].

(** The table after the signup alone, and after signup, verification, a
    first login and a login from Paris that asks for a step-up. *)
Definition afterSignup : list user :=
  run [ (Signup, clock 0 "123456" "u-1", signupRequest) ] [].

Definition challenged : list user :=
  run [ (Signup, clock 0 "123456" "u-1", signupRequest);
        (VerifyEmail, clock 1000 "" "", verifyRequest "123456");
        (Login, clock 2000 "" "", loginRequest "correct horse" "8.8.8.8" "chrome-on-windows");
        (Login, clock 3000 "654321" "sid-1",
           loginRequest "correct horse" "1.1.1.1" "chrome-on-windows") ] [].

Definition bobSignupRequest : event :=
  mkEvent "bob@example.com" "battery staple" "" "" "1.1.1.1" "" "" ""
    "firefox-on-windows" "".

Definition aliceSignsUpAgain : event :=
  mkEvent "alice@example.com" "another horse" "" "" "1.1.1.1" "" "" ""
    "safari-on-ios" "".

(** Two accounts, the first of which signs up a second time. *)
Definition twoAccounts : list user :=
  run [ (Signup, clock 0 "123456" "u-1", signupRequest);
        (Signup, clock 1000 "234567" "u-2", bobSignupRequest);
        (Signup, clock 2000 "345678" "u-3", aliceSignsUpAgain) ] [].

Definition wrongCodes : list (draws * event) :=
  [ (clock 1000 "" "", verifyRequest "000000");
    (clock 2000 "" "", verifyRequest "000001");
    (clock 3000 "" "", verifyRequest "000002") ].

Definition fiveTries : list (draws * event) :=
  map (fun k => (clock (k * 60000) "" "",
                 loginRequest "guess" "1.1.1.1" "firefox-on-windows"))
      [1; 2; 3; 4; 5].

(** A request without any client address or user agent. *)
Definition anonymousRequest : event :=
  mkEvent "alice@example.com" "correct horse" "" "" "" "" "" "" "" "".

Definition chrome121Windows11 : deviceInfo :=
  mkDevice "chrome 121.0.6167" "WINDOWS 11" "desktop" "unknown".

Definition visitAt9 (k : Z) : loginEntry :=
  mkEntry (k * 86400000 + 9 * 3600000) "8.8.8.8" usLocation chromeWindows.

Definition bearerHeaders : list (string * string) :=
  [ ("Content-Type", "application/json");
    ("AUTHORIZATION", "bEARER   jwt.u-1.alice@example.com") ].

Definition verifyToken (token : string) : option string :=
  if String.eqb token "jwt.u-1.alice@example.com" then Some "u-1" else None.

Definition legacyConfig : Legacy.config :=
  Legacy.mkConfig true true
    (fun password => "$2b$12$" ++ password)
    (fun password digest => String.eqb digest ("$2b$12$" ++ password))
    (fun mail => "jwt." ++ mail).

End Sample.

Section Properties.

Context {services : Services}.

Import JsString.

(** ** Properties *)

(** *** The table *)

Lemma scan_head p t u rest :
  scan p t = u :: rest -> In u t /\ p u = true.
Proof.
  intros H. apply filter_In. unfold scan in H. rewrite H. now left.
Qed.

Lemma get_In t u :
  keysUnique t -> In u t -> get (userId u) t = Some u.
Proof.
  unfold keysUnique, get. induction t as [|v t IH]; simpl; intros Hnd Hin.
  - contradiction.
  - inversion Hnd as [|? ? Hnotin Hnd']; subst.
    destruct Hin as [-> | Hin].
    + now rewrite String.eqb_refl.
    + destruct (String.eqb (userId v) (userId u)) eqn:E.
      * apply String.eqb_eq in E. exfalso. apply Hnotin.
        rewrite E. now apply in_map.
      * now apply IH.
Qed.

Lemma get_update k k' f t :
  (forall u, userId (f u) = userId u) ->
  get k' (update k f t) =
  if String.eqb k k' then option_map f (get k' t) else get k' t.
Proof.
  intros Hf. unfold get, update. induction t as [|v t IH]; simpl.
  - now destruct (String.eqb k k').
  - destruct (String.eqb (userId v) k) eqn:Ek.
    + rewrite Hf. destruct (String.eqb (userId v) k') eqn:Ek'.
      * apply String.eqb_eq in Ek, Ek'. subst k'. rewrite <- Ek.
        now rewrite String.eqb_refl.
      * exact IH.
    + destruct (String.eqb (userId v) k') eqn:Ek'.
      * destruct (String.eqb k k') eqn:E; [|reflexivity].
        apply String.eqb_eq in E, Ek'. subst k'.
        rewrite Ek', String.eqb_refl in Ek. discriminate.
      * exact IH.
Qed.

Lemma get_update_same k f t u :
  (forall v, userId (f v) = userId v) ->
  get k t = Some u -> get k (update k f t) = Some (f u).
Proof.
  intros Hf Hg. rewrite get_update by assumption.
  now rewrite String.eqb_refl, Hg.
Qed.

Lemma map_userId_update k f t :
  (forall v, userId (f v) = userId v) ->
  map userId (update k f t) = map userId t.
Proof.
  intros Hf. unfold update. rewrite map_map. apply map_ext.
  intros v. now destruct (String.eqb (userId v) k).
Qed.

Lemma keysUnique_update k f t :
  (forall v, userId (f v) = userId v) ->
  keysUnique t -> keysUnique (update k f t).
Proof.
  intros Hf H. unfold keysUnique. now rewrite map_userId_update.
Qed.

Lemma In_update k f t v :
  In v (update k f t) ->
  exists w, In w t /\ (v = w \/ (userId w = k /\ v = f w)).
Proof.
  unfold update. intros H. apply in_map_iff in H as [w [Hw Hin]].
  exists w. split; [assumption|].
  destruct (String.eqb (userId w) k) eqn:E.
  - right. apply String.eqb_eq in E. now split.
  - now left.
Qed.

Lemma In_put item t v :
  In v (put item t) -> v = item \/ In v t.
Proof.
  induction t as [|w t IH]; simpl.
  - intros [<- | []]. now left.
  - destruct (String.eqb (userId w) (userId item)).
    + intros [<- | H]; [now left | right; now right].
    + intros [<- | H]; [right; now left |].
      destruct (IH H); [now left | right; now right].
Qed.

Lemma map_userId_put item t :
  incl (map userId (put item t)) (userId item :: map userId t).
Proof.
  intros k Hk. apply in_map_iff in Hk as [v [<- Hv]].
  apply In_put in Hv as [-> | Hv]; [now left | right; now apply in_map].
Qed.

Lemma keysUnique_put item t :
  keysUnique t -> keysUnique (put item t).
Proof.
  unfold keysUnique. induction t as [|w t IH]; simpl; intros H.
  - repeat constructor. intros [].
  - inversion H as [|? ? Hnot Hnd]; subst.
    destruct (String.eqb (userId w) (userId item)) eqn:E; simpl.
    + apply String.eqb_eq in E. rewrite <- E. now constructor.
    + constructor; [|now apply IH].
      intros Hin. apply map_userId_put in Hin as [Heq | Hin].
      * rewrite Heq, String.eqb_refl in E. discriminate.
      * contradiction.
Qed.

(** *** [slice(-n)] *)

Lemma sliceLast_length n {A} (l : list A) :
  (List.length (sliceLast n l) <= n)%nat.
Proof. unfold sliceLast. rewrite length_skipn. lia. Qed.

Lemma sliceLast_split n {A} (l : list A) :
  l = (firstn (List.length l - n) l ++ sliceLast n l)%list.
Proof. unfold sliceLast. now rewrite firstn_skipn. Qed.

(** *** The update expressions keep the key *)

Lemma userId_recordAttempt t0 u : userId (recordAttempt t0 u) = userId u.
Proof. reflexivity. Qed.

Lemma userId_storeStepUp c e sid sd t0 u :
  userId (storeStepUp c e sid sd t0 u) = userId u.
Proof. reflexivity. Qed.

Lemma userId_storeLogin t0 ip loc dev h u :
  userId (storeLogin t0 ip loc dev h u) = userId u.
Proof. reflexivity. Qed.

Lemma userId_commitStepUp t0 ip loc dev h u :
  userId (commitStepUp t0 ip loc dev h u) = userId u.
Proof. reflexivity. Qed.

Lemma userId_incOtpAttempts u : userId (incOtpAttempts u) = userId u.
Proof. reflexivity. Qed.

Lemma userId_incLoginOTPAttempts u : userId (incLoginOTPAttempts u) = userId u.
Proof. reflexivity. Qed.

Lemma userId_markVerified t0 u : userId (markVerified t0 u) = userId u.
Proof. reflexivity. Qed.

Lemma userId_setSignupOTP c e t0 u : userId (setSignupOTP c e t0 u) = userId u.
Proof. reflexivity. Qed.

Create HintDb keys.
#[local] Hint Resolve userId_recordAttempt userId_storeStepUp userId_storeLogin
  userId_commitStepUp userId_incOtpAttempts userId_incLoginOTPAttempts
  userId_markVerified userId_setSignupOTP : keys.

(** Two updates of the same item, read back. *)
Lemma get_update_twice k f g t u :
  (forall v, userId (f v) = userId v) ->
  (forall v, userId (g v) = userId v) ->
  get k t = Some u ->
  get k (update k g (update k f t)) = Some (g (f u)).
Proof.
  intros Hf Hg Hu. apply get_update_same; [assumption|].
  now apply get_update_same.
Qed.

(** *** The rate limiter *)

Lemma checkRateLimit_limited d attempts w m :
  0 < m ->
  limited (checkRateLimit d attempts w m) = (m <=? attemptsInWindow d w attempts).
Proof.
  intros Hm. unfold checkRateLimit, attemptsInWindow.
  destruct attempts as [|a l]; [|reflexivity].
  simpl. symmetry. apply Z.leb_gt. assumption.
Qed.

(** [login] once the request is well-formed and the user is found. *)
Lemma login_found d ev t u rest :
  truthy (bodyEmail ev) = true ->
  truthy (bodyPassword ev) = true ->
  scan (byEmail (bodyEmail ev)) t = u :: rest ->
  login d ev t =
  if MAX_LOGIN_ATTEMPTS <=? attemptsInWindow d RATE_LIMIT_WINDOW_MINUTES (loginAttempts u)
  then (t, RateLimited (RATE_LIMIT_WINDOW_MINUTES * 60))
  else
    let t1 := update (userId u) (recordAttempt (now d)) t in
    let check := performCognitiveCheck d ev u in
    if negb (bcryptCompare (bodyPassword ev) (passwordHash u))
    then (t1, InvalidCredentials)
    else if negb (isEmailVerified u) then (t1, EmailUnverified)
    else if suspicious check then
      (update (userId u)
         (storeStepUp (newOTP d) (generateOTPExpiry d) (newUUID d)
            (mkSession (currentIP check) (currentLocation check)
               (currentDevice check) (now d)) (now d)) t1,
       StepUpRequired (newUUID d) (reasons check))
    else
      (update (userId u)
         (storeLogin (now d) (currentIP check) (currentLocation check)
            (currentDevice check)
            (sliceLast 10
               (loginHistory u ++
                [mkEntry (now d) (currentIP check) (currentLocation check)
                   (currentDevice check)])%list)) t1,
       Authenticated (jwtSign (userId u) (email u))).
Proof.
  intros He Hp Hscan. unfold login. rewrite He, Hp, Hscan.
  cbn [negb orb]. cbv zeta.
  rewrite checkRateLimit_limited by reflexivity.
  reflexivity.
Qed.

(** C3. A user with at least [MAX_LOGIN_ATTEMPTS] recorded attempts inside
    the trailing [RATE_LIMIT_WINDOW_MINUTES] is answered [RateLimited] with a
    retry-after hint of the window length (900 seconds), whatever
    [bcrypt.compare] would say of the submitted password; nothing is
    written. *)
Theorem login_rate_limited d ev t u rest :
  truthy (bodyEmail ev) = true ->
  truthy (bodyPassword ev) = true ->
  scan (byEmail (bodyEmail ev)) t = u :: rest ->
  MAX_LOGIN_ATTEMPTS <= attemptsInWindow d RATE_LIMIT_WINDOW_MINUTES (loginAttempts u) ->
  login d ev t = (t, RateLimited (RATE_LIMIT_WINDOW_MINUTES * 60))
  /\ RATE_LIMIT_WINDOW_MINUTES * 60 = 15 * 60.
Proof.
  intros He Hp Hscan Hn. split; [|reflexivity].
  rewrite (login_found d ev t u rest) by assumption.
  apply Z.leb_le in Hn. now rewrite Hn.
Qed.

(** The amended C8. A login attempt against an existing user that the rate
    limiter lets through appends the current timestamp to that user's
    [loginAttempts] before the password is compared: the timestamp is in the
    table whatever the outcome of the attempt. *)
Theorem login_records_attempt d ev t u rest :
  keysUnique t ->
  truthy (bodyEmail ev) = true ->
  truthy (bodyPassword ev) = true ->
  scan (byEmail (bodyEmail ev)) t = u :: rest ->
  attemptsInWindow d RATE_LIMIT_WINDOW_MINUTES (loginAttempts u) < MAX_LOGIN_ATTEMPTS ->
  exists u',
    get (userId u) (fst (login d ev t)) = Some u'
    /\ loginAttempts u' = (loginAttempts u ++ [now d])%list.
Proof.
  intros Hk He Hp Hscan Hn.
  assert (Hget : get (userId u) t = Some u)
    by (apply get_In; [assumption | now apply (scan_head _ _ _ _ Hscan)]).
  rewrite (login_found d ev t u rest) by assumption.
  apply Z.leb_gt in Hn. rewrite Hn. cbv zeta.
  destruct (bcryptCompare (bodyPassword ev) (passwordHash u)); cbn [negb fst].
  - destruct (isEmailVerified u); cbn [negb fst].
    + destruct (suspicious (performCognitiveCheck d ev u)); cbn [fst];
        eexists; (split; [apply get_update_twice; eauto with keys | reflexivity]).
    + eexists. split; [apply get_update_same; eauto with keys | reflexivity].
  - eexists. split; [apply get_update_same; eauto with keys | reflexivity].
Qed.

(** C10. For a user whose email is already verified, [verifyEmail] answers
    "Email already verified" (400) for every submitted code, writes nothing
    and issues no token. *)
Theorem verifyEmail_already_verified d ev t u rest :
  truthy (bodyEmail ev) = true ->
  scan (byEmail (bodyEmail ev)) t = u :: rest ->
  isEmailVerified u = true ->
  fst (verifyEmail d ev t) = t
  /\ issuedToken (snd (verifyEmail d ev t)) = None
  /\ (truthy (bodyOtp ev) = true ->
      verifyEmail d ev t = (t, AlreadyVerified)
      /\ statusCode AlreadyVerified = 400).
Proof.
  intros He Hscan Hv. unfold verifyEmail. rewrite He, Hscan, Hv. simpl.
  destruct (truthy (bodyOtp ev)); simpl; repeat split; congruence.
Qed.

(** *** Completed logins *)

(** [verifyLoginOTP] when the session is found, the counter is below the
    maximum, the code has not expired and the submitted code is the stored
    one. *)
Lemma verifyLoginOTP_success d ev t u rest data :
  truthy (bodySessionId ev) = true ->
  truthy (bodyOtp ev) = true ->
  scan (bySession (bodySessionId ev)) t = u :: rest ->
  attemptsExhausted (loginOTPAttempts u) = false ->
  isOTPExpired d (loginOTPExpiry u) = false ->
  loginOTP u = Some (bodyOtp ev) ->
  pendingSessionData u = Some data ->
  verifyLoginOTP d ev t =
  (update (userId u)
     (commitStepUp (now d) (sessionIP data) (sessionLocation data)
        (sessionDevice data)
        (sliceLast 10
           (loginHistory u ++
            [mkEntry (now d) (sessionIP data) (sessionLocation data)
               (sessionDevice data)])%list)) t,
   Authenticated (jwtSign (userId u) (email u))).
Proof.
  intros Hs Ho Hscan Ha He Hc Hd. unfold verifyLoginOTP.
  rewrite Hs, Ho, Hscan, Ha, He, Hc, Hd. cbn [negb orb sameCode].
  now rewrite String.eqb_refl.
Qed.

(** The only way [verifyLoginOTP] completes a login. *)
Lemma verifyLoginOTP_Authenticated d ev t t' tok :
  verifyLoginOTP d ev t = (t', Authenticated tok) ->
  exists u rest data,
    scan (bySession (bodySessionId ev)) t = u :: rest
    /\ pendingSessionData u = Some data
    /\ t' = update (userId u)
              (commitStepUp (now d) (sessionIP data) (sessionLocation data)
                 (sessionDevice data)
                 (sliceLast 10
                    (loginHistory u ++
                     [mkEntry (now d) (sessionIP data) (sessionLocation data)
                        (sessionDevice data)])%list)) t.
Proof.
  unfold verifyLoginOTP. intros H.
  destruct (negb (truthy (bodySessionId ev)) || negb (truthy (bodyOtp ev)));
    [discriminate|].
  destruct (scan (bySession (bodySessionId ev)) t) as [|u rest] eqn:Hscan;
    [discriminate|].
  destruct (attemptsExhausted (loginOTPAttempts u)); [discriminate|].
  destruct (isOTPExpired d (loginOTPExpiry u)); [discriminate|].
  destruct (negb (sameCode (loginOTP u) (bodyOtp ev))).
  - destruct (loginOTPAttempts u); discriminate.
  - destruct (pendingSessionData u) as [data|] eqn:Hd; [|discriminate].
    injection H as <- _. now exists u, rest, data.
Qed.

(** The only way [login] completes a login. *)
Lemma login_Authenticated d ev t t' tok :
  login d ev t = (t', Authenticated tok) ->
  exists u rest,
    scan (byEmail (bodyEmail ev)) t = u :: rest
    /\ let check := performCognitiveCheck d ev u in
       suspicious check = false
       /\ t' = update (userId u)
                 (storeLogin (now d) (currentIP check) (currentLocation check)
                    (currentDevice check)
                    (sliceLast 10
                       (loginHistory u ++
                        [mkEntry (now d) (currentIP check) (currentLocation check)
                           (currentDevice check)])%list))
                 (update (userId u) (recordAttempt (now d)) t).
Proof.
  intros H.
  destruct (truthy (bodyEmail ev)) eqn:He;
    [|unfold login in H; rewrite He in H; discriminate].
  destruct (truthy (bodyPassword ev)) eqn:Hp;
    [|unfold login in H; rewrite He, Hp in H; discriminate].
  destruct (scan (byEmail (bodyEmail ev)) t) as [|u rest] eqn:Hscan;
    [unfold login in H; rewrite He, Hp, Hscan in H; discriminate|].
  rewrite (login_found d ev t u rest) in H by assumption.
  destruct (MAX_LOGIN_ATTEMPTS <=? _); [discriminate|].
  cbv zeta in H.
  destruct (negb (bcryptCompare _ _)); [discriminate|].
  destruct (negb (isEmailVerified u)); [discriminate|].
  destruct (suspicious (performCognitiveCheck d ev u)) eqn:Hsus; [discriminate|].
  injection H as <- _. exists u, rest. cbv zeta. now split.
Qed.

Lemma evicted_length {A} (old : list A) (e : A) :
  List.length (firstn (List.length (old ++ [e]) - 10) (old ++ [e]))
  = (List.length old + 1 - 10)%nat.
Proof. rewrite length_firstn, length_app. simpl. lia. Qed.

Lemma sliceLast_snoc {A} (old : list A) (e : A) :
  exists kept, sliceLast 10 (old ++ [e]) = (kept ++ [e])%list.
Proof.
  unfold sliceLast. exists (skipn (List.length (old ++ [e]) - 10) old).
  rewrite skipn_app.
  replace (List.length (old ++ [e]) - 10 - List.length old)%nat with 0%nat
    by (rewrite length_app; simpl; lia).
  reflexivity.
Qed.

(** C7. After the write of a successful login or of a successful login-OTP
    confirmation, the user's [loginHistory] is the stored history with the
    new entry appended at the end and the oldest entries removed from the
    front, exactly as many as needed to keep at most 10. *)
Theorem loginHistory_bounded_fifo r d ev t t' tok :
  keysUnique t ->
  r = Login \/ r = VerifyLoginOTP ->
  handle r d ev t = (t', Authenticated tok) ->
  exists u u' entry evicted,
    In u t
    /\ get (userId u) t' = Some u'
    /\ timestamp entry = now d
    /\ (loginHistory u ++ [entry])%list = (evicted ++ loginHistory u')%list
    /\ (List.length (loginHistory u') <= 10)%nat
    /\ List.length evicted = (List.length (loginHistory u) + 1 - 10)%nat
    /\ exists kept, loginHistory u' = (kept ++ [entry])%list.
Proof.
  intros Hk [-> | ->] H; cbn [handle] in H.
  - apply login_Authenticated in H as (u & rest & Hscan & Hsus & ->).
    destruct (scan_head _ _ _ _ Hscan) as [Hin _].
    set (check := performCognitiveCheck d ev u) in *.
    exists u. eexists. eexists. eexists.
    split; [assumption|].
    split; [apply get_update_twice; eauto using get_In with keys|].
    split; [|split; [|split; [|split]]].
    2: apply sliceLast_split.
    + reflexivity.
    + apply sliceLast_length.
    + apply evicted_length.
    + apply sliceLast_snoc.
  - apply verifyLoginOTP_Authenticated in H as (u & rest & data & Hscan & Hd & ->).
    destruct (scan_head _ _ _ _ Hscan) as [Hin _].
    exists u. eexists. eexists. eexists.
    split; [assumption|].
    split; [apply get_update_same; eauto using get_In with keys|].
    split; [|split; [|split; [|split]]].
    2: apply sliceLast_split.
    + reflexivity.
    + apply sliceLast_length.
    + apply evicted_length.
    + apply sliceLast_snoc.
Qed.

(** *** Pending step-up sessions *)

Lemma scan_update_preserving p k f t :
  (forall v, p (f v) = p v) ->
  scan p (update k f t) = update k f (scan p t).
Proof.
  intros Hp. unfold scan, update. induction t as [|v t IH]; simpl; [reflexivity|].
  destruct (String.eqb (userId v) k) eqn:E.
  - rewrite Hp. destruct (p v); simpl; [rewrite E|]; now rewrite IH.
  - destruct (p v); simpl; [rewrite E|]; now rewrite IH.
Qed.

Lemma update_update k f g t :
  (forall v, userId (f v) = userId v) ->
  update k g (update k f t) = update k (fun v => g (f v)) t.
Proof.
  intros Hf. unfold update. rewrite map_map. apply map_ext. intros v.
  destruct (String.eqb (userId v) k) eqn:E.
  - now rewrite Hf, E.
  - now rewrite E.
Qed.

Lemma update_absent k f t :
  ~ In k (map userId t) -> update k f t = t.
Proof.
  unfold update. induction t as [|v t IH]; simpl; intros H; [reflexivity|].
  destruct (String.eqb (userId v) k) eqn:E.
  - apply String.eqb_eq in E. exfalso. apply H. now left.
  - f_equal. apply IH. intros Hin. apply H. now right.
Qed.

(** A scan for a property that no stored item has, after an update that
    gives it to the item [u]: the updated item is the only match. *)
Lemma scan_update_fresh p f t u :
  keysUnique t ->
  In u t ->
  (forall v, In v t -> p v = false) ->
  p (f u) = true ->
  scan p (update (userId u) f t) = [f u].
Proof.
  unfold keysUnique. induction t as [|v t IH]; simpl; intros Hk Hin Hfresh Hp.
  - contradiction.
  - inversion Hk as [|? ? Hnot Hnd]; subst.
    assert (Hnone : forall l, (forall w, In w l -> p w = false) -> filter p l = []).
    { induction l as [|w l IHl]; simpl; intros Hl; [reflexivity|].
      rewrite (Hl w) by now left. apply IHl. intros x Hx. apply Hl. now right. }
    destruct Hin as [-> | Hin].
    + rewrite String.eqb_refl. fold (update (userId u) f t).
      rewrite update_absent by assumption.
      unfold scan. simpl. rewrite Hp. f_equal.
      apply Hnone. intros w Hw. apply Hfresh. now right.
    + destruct (String.eqb (userId v) (userId u)) eqn:E.
      * apply String.eqb_eq in E. exfalso. apply Hnot. rewrite E. now apply in_map.
      * unfold scan. simpl. rewrite (Hfresh v) by now left.
        apply IH; try assumption. intros w Hw. apply Hfresh. now right.
Qed.

(** The amended C2. An authenticated login changes one item only, the
    user's. There it writes the last-login fields, the history (the new
    entry last, the oldest entries leaving so that at most 10 stay) and
    [updatedAt], the attempt having been appended before;
    every other attribute keeps its value, the pending step-up state
    included (pending session id, step-up code, expiry, attempts and session
    data). So every session id resolves to the same users after the login
    as before it. *)
Theorem login_keeps_pending_step_up d ev t t' tok u rest :
  keysUnique t ->
  scan (byEmail (bodyEmail ev)) t = u :: rest ->
  login d ev t = (t', Authenticated tok) ->
  let ip := extractIPAddress ev in
  let loc := getIPLocation ip in
  let dev := getDeviceFingerprint ev in
  (exists u',
     get (userId u) t' = Some u'
     (* what the request writes *)
     /\ lastLoginTime u' = Some (now d)
     /\ lastLoginIP u' = ip
     /\ lastLoginLocation u' = Some loc
     /\ lastLoginDevice u' = Some dev
     /\ (exists kept, loginHistory u' = (kept ++ [mkEntry (now d) ip loc dev])%list)
     /\ (exists evicted,
           (loginHistory u ++ [mkEntry (now d) ip loc dev])%list
           = (evicted ++ loginHistory u')%list
           /\ List.length evicted = (List.length (loginHistory u) + 1 - 10)%nat)
     /\ (List.length (loginHistory u') <= 10)%nat
     /\ updatedAt u' = now d
     /\ loginAttempts u' = (loginAttempts u ++ [now d])%list
     (* the pending step-up *)
     /\ pendingSessionId u' = pendingSessionId u
     /\ loginOTP u' = loginOTP u
     /\ loginOTPExpiry u' = loginOTPExpiry u
     /\ loginOTPAttempts u' = loginOTPAttempts u
     /\ pendingSessionData u' = pendingSessionData u
     (* the rest of the item *)
     /\ userId u' = userId u
     /\ email u' = email u
     /\ passwordHash u' = passwordHash u
     /\ isEmailVerified u' = isEmailVerified u
     /\ otp u' = otp u
     /\ otpExpiry u' = otpExpiry u
     /\ otpAttempts u' = otpAttempts u
     /\ createdAt u' = createdAt u)
  /\ (forall k, k <> userId u -> get k t' = get k t)
  /\ forall sid,
       map userId (scan (bySession sid) t') = map userId (scan (bySession sid) t).
Proof.
  intros Hk Hscan H ip loc dev.
  apply login_Authenticated in H as (u0 & rest0 & Hscan0 & Hsus & ->).
  rewrite Hscan in Hscan0. injection Hscan0 as <- <-.
  destruct (scan_head _ _ _ _ Hscan) as [Hin _].
  split; [|split].
  - eexists. split; [apply get_update_twice; eauto using get_In with keys|].
    cbn [lastLoginTime lastLoginIP lastLoginLocation lastLoginDevice loginHistory
         updatedAt loginAttempts pendingSessionId loginOTP loginOTPExpiry
         loginOTPAttempts pendingSessionData userId email passwordHash
         isEmailVerified otp otpExpiry otpAttempts createdAt
         storeLogin recordAttempt].
    repeat (split; [reflexivity|]).
    split; [apply sliceLast_snoc|].
    split; [eexists; split; [apply sliceLast_split | apply evicted_length]|].
    split; [apply sliceLast_length|].
    repeat split.
  - intros k Hne.
    rewrite !get_update by auto with keys.
    apply not_eq_sym, String.eqb_neq in Hne. now rewrite Hne.
  - intros sid.
    rewrite !scan_update_preserving by reflexivity.
    now rewrite !map_userId_update by auto with keys.
Qed.

(** C6. A suspicious login snapshots the ip, location and device of its
    request into the pending session data. A following [verifyLoginOTP] with
    the session id and the code of that login, before the code expires,
    writes that snapshot (not the signals of the confirming request [ev2])
    into the last-login fields and into the entry appended to
    [loginHistory] (the new entry is the last one, the oldest entries leave
    so that at most 10 stay), clears the pending step-up and issues a
    token. *)
Theorem step_up_round_trip d1 ev1 t t1 sid why u rest d2 ev2 :
  keysUnique t ->
  scan (byEmail (bodyEmail ev1)) t = u :: rest ->
  login d1 ev1 t = (t1, StepUpRequired sid why) ->
  (forall v, In v t -> bySession sid v = false) ->
  truthy sid = true ->
  truthy (newOTP d1) = true ->
  bodySessionId ev2 = sid ->
  bodyOtp ev2 = newOTP d1 ->
  now d2 <= generateOTPExpiry d1 ->
  let ip := extractIPAddress ev1 in
  let loc := getIPLocation ip in
  let dev := getDeviceFingerprint ev1 in
  (exists u1,
     get (userId u) t1 = Some u1
     /\ pendingSessionId u1 = Some sid
     /\ pendingSessionData u1 = Some (mkSession ip loc dev (now d1)))
  /\ exists u',
    snd (verifyLoginOTP d2 ev2 t1) = Authenticated (jwtSign (userId u) (email u))
    /\ get (userId u) (fst (verifyLoginOTP d2 ev2 t1)) = Some u'
    /\ lastLoginTime u' = Some (now d2)
    /\ lastLoginIP u' = ip
    /\ lastLoginLocation u' = Some loc
    /\ lastLoginDevice u' = Some dev
    /\ (exists kept, loginHistory u' = (kept ++ [mkEntry (now d2) ip loc dev])%list)
    /\ (exists evicted,
          (loginHistory u ++ [mkEntry (now d2) ip loc dev])%list
          = (evicted ++ loginHistory u')%list
          /\ List.length evicted = (List.length (loginHistory u) + 1 - 10)%nat)
    /\ (List.length (loginHistory u') <= 10)%nat
    /\ pendingSessionId u' = None
    /\ pendingSessionData u' = None
    /\ loginOTP u' = None
    /\ loginOTPExpiry u' = None
    /\ loginOTPAttempts u' = Some 0.
Proof.
  intros Hk Hscan H Hfresh Hsid Hcode Hs2 Ho2 Hexp ip loc dev.
  destruct (scan_head _ _ _ _ Hscan) as [Hin _].
  assert (Hget : get (userId u) t = Some u) by now apply get_In.
  (* the login took the step-up branch *)
  destruct (truthy (bodyEmail ev1)) eqn:He;
    [|unfold login in H; rewrite He in H; discriminate].
  destruct (truthy (bodyPassword ev1)) eqn:Hp;
    [|unfold login in H; rewrite He, Hp in H; discriminate].
  rewrite (login_found d1 ev1 t u rest) in H by assumption.
  destruct (MAX_LOGIN_ATTEMPTS <=? _); [discriminate|].
  cbv zeta in H.
  destruct (negb (bcryptCompare _ _)); [discriminate|].
  destruct (negb (isEmailVerified u)); [discriminate|].
  destruct (suspicious (performCognitiveCheck d1 ev1 u)); [|discriminate].
  injection H as <- <- _.
  rewrite update_update in * by auto with keys.
  set (pend := fun v => storeStepUp _ _ _ _ _ (recordAttempt _ v)) in *.
  (* the session resolves to the user of the login *)
  assert (Hfound : scan (bySession (bodySessionId ev2)) (update (userId u) pend t)
                   = [pend u]).
  { rewrite Hs2. apply scan_update_fresh; try assumption.
    unfold pend, bySession. cbn. apply String.eqb_refl. }
  split.
  { exists (pend u). split; [|split; reflexivity].
    apply get_update_same; [reflexivity | assumption]. }
  rewrite (verifyLoginOTP_success d2 ev2 _ (pend u) [] (mkSession ip loc dev (now d1))).
  - exists (commitStepUp (now d2) ip loc dev
              (sliceLast 10 (loginHistory u ++ [mkEntry (now d2) ip loc dev])%list)
              (pend u)).
    split; [reflexivity|].
    split; [cbn [fst]; change (userId (pend u)) with (userId u);
            apply get_update_twice; auto with keys|].
    cbn [lastLoginTime lastLoginIP lastLoginLocation lastLoginDevice loginHistory
         pendingSessionId pendingSessionData loginOTP loginOTPExpiry
         loginOTPAttempts commitStepUp].
    repeat (split; [reflexivity|]).
    split; [apply sliceLast_snoc|].
    split; [eexists; split; [apply sliceLast_split | apply evicted_length]|].
    split; [apply sliceLast_length|].
    repeat split.
  - now rewrite Hs2.
  - now rewrite Ho2.
  - exact Hfound.
  - reflexivity.
  - unfold pend. cbn. apply Z.ltb_ge. exact Hexp.
  - unfold pend. cbn. now rewrite Ho2.
  - reflexivity.
Qed.

(** *** One-time codes *)

Lemma isOTPExpired_expiredAt d expiry :
  isOTPExpired d expiry = true <-> expiredAt d expiry.
Proof.
  unfold isOTPExpired, expiredAt. destruct expiry as [e|].
  - rewrite Z.ltb_lt. split.
    + intros H. right. now exists e.
    + intros [H | [e' [[= <-] H]]]; [discriminate | assumption].
  - split; [now left | reflexivity].
Qed.

(** The amended C5. A verification whose stored expiry is absent or earlier
    than the current time is answered [OtpExpired], whatever code is
    submitted, provided the earlier guards let it through: the attempt
    counter is below the maximum and, on the signup path, the email is not
    yet verified. [OtpExpired] is not the mismatch outcome, and nothing is
    written. *)
Theorem expired_otp_rejected d ev t u rest :
  truthy (bodyOtp ev) = true ->
  (truthy (bodyEmail ev) = true ->
   scan (byEmail (bodyEmail ev)) t = u :: rest ->
   isEmailVerified u = false ->
   attemptsExhausted (otpAttempts u) = false ->
   expiredAt d (otpExpiry u) ->
   verifyEmail d ev t = (t, OtpExpired))
  /\ (truthy (bodySessionId ev) = true ->
      scan (bySession (bodySessionId ev)) t = u :: rest ->
      attemptsExhausted (loginOTPAttempts u) = false ->
      expiredAt d (loginOTPExpiry u) ->
      verifyLoginOTP d ev t = (t, OtpExpired))
  /\ forall n, OtpExpired <> OtpInvalid n.
Proof.
  intros Ho. split; [|split].
  - intros He Hscan Hv Ha Hx. apply isOTPExpired_expiredAt in Hx.
    unfold verifyEmail. now rewrite He, Ho, Hscan, Hv, Ha, Hx.
  - intros Hs Hscan Ha Hx. apply isOTPExpired_expiredAt in Hx.
    unfold verifyLoginOTP. now rewrite Hs, Ho, Hscan, Ha, Hx.
  - discriminate.
Qed.

(** *** What every reachable table satisfies *)

Lemma keys_determine t u v :
  keysUnique t -> In u t -> In v t -> userId u = userId v -> u = v.
Proof.
  intros Hk Hu Hv E.
  pose proof (get_In t u Hk Hu) as Gu.
  pose proof (get_In t v Hk Hv) as Gv.
  rewrite E in Gu. congruence.
Qed.

Lemma Forall_update (P : user -> Prop) k f t :
  Forall P t ->
  (forall v, In v t -> userId v = k -> P (f v)) ->
  Forall P (update k f t).
Proof.
  intros Ht Hf. apply Forall_forall. intros v Hv.
  apply In_update in Hv as (w & Hw & [-> | [Hk ->]]).
  - revert w Hw. now apply Forall_forall.
  - now apply Hf.
Qed.

Lemma tableOk_update t u f :
  tableOk t -> In u t ->
  (forall v, userId (f v) = userId v) ->
  userOk (f u) ->
  tableOk (update (userId u) f t).
Proof.
  intros [Hk Hok] Hin Hf Hu. split.
  - now apply keysUnique_update.
  - apply Forall_update; [assumption|].
    intros v Hv E. now rewrite (keys_determine t v u Hk Hv Hin E).
Qed.

Lemma tableOk_In t u : tableOk t -> In u t -> userOk u.
Proof. intros [_ H] Hin. revert u Hin. now apply Forall_forall. Qed.

Lemma attemptsExhausted_false c :
  attemptsExhausted c = false ->
  counterBounded c -> counterBounded (option_map (fun a => a + 1) c).
Proof.
  unfold attemptsExhausted, counterBounded, MAX_OTP_ATTEMPTS.
  destruct c as [a|]; simpl; [|trivial].
  intros H. apply Z.leb_gt in H. lia.
Qed.

Ltac userOk_fields :=
  match goal with
  | H : userOk _ |- userOk _ =>
      destruct H as (? & ? & ?); unfold userOk; cbn;
      repeat split; auto; unfold MAX_OTP_ATTEMPTS; try lia; try congruence
  end.

Lemma signup_tableOk d ev t : tableOk t -> tableOk (fst (signup d ev t)).
Proof.
  intros Hok. unfold signup.
  destruct (negb (truthy (bodyEmail ev)) || negb (truthy (bodyPassword ev)));
    [assumption|].
  destruct (negb (emailRegexTest (bodyEmail ev))); [assumption|].
  destruct (String.length (bodyPassword ev) <? 8)%nat; [assumption|].
  cbv zeta. cbn [fst]. destruct Hok as [Hk Hall]. split.
  - now apply keysUnique_put.
  - apply Forall_forall. intros v Hv. apply In_put in Hv as [-> | Hv].
    + unfold userOk, counterBounded, MAX_OTP_ATTEMPTS. cbn.
      repeat split; try lia; try discriminate.
    + revert v Hv. now apply Forall_forall.
Qed.

Lemma resendOTP_tableOk d ev t : tableOk t -> tableOk (fst (resendOTP d ev t)).
Proof.
  intros Hok. unfold resendOTP.
  destruct (negb (truthy (bodyEmail ev))); [assumption|].
  destruct (scan (byEmail (bodyEmail ev)) t) as [|u rest] eqn:Hscan; [assumption|].
  destruct (scan_head _ _ _ _ Hscan) as [Hin _].
  destruct (isEmailVerified u); [assumption|].
  assert (tableOk (update (userId u)
                     (setSignupOTP (newOTP d) (generateOTPExpiry d) (now d)) t)).
  { apply tableOk_update; auto with keys.
    pose proof (tableOk_In t u Hok Hin) as Hu. userOk_fields. }
  now destruct (mailDelivered d).
Qed.

Lemma verifyEmail_tableOk d ev t : tableOk t -> tableOk (fst (verifyEmail d ev t)).
Proof.
  intros Hok. unfold verifyEmail.
  destruct (negb (truthy (bodyEmail ev)) || negb (truthy (bodyOtp ev)));
    [assumption|].
  destruct (scan (byEmail (bodyEmail ev)) t) as [|u rest] eqn:Hscan; [assumption|].
  destruct (scan_head _ _ _ _ Hscan) as [Hin _].
  pose proof (tableOk_In t u Hok Hin) as Hu.
  destruct (isEmailVerified u) eqn:Hv; [assumption|].
  destruct (attemptsExhausted (otpAttempts u)) eqn:Ha; [assumption|].
  destruct (isOTPExpired d (otpExpiry u)); [assumption|].
  destruct (negb (sameCode (otp u) (bodyOtp ev))).
  - destruct (otpAttempts u) as [a|] eqn:Hc; [|assumption].
    cbn [fst]. apply tableOk_update; auto with keys.
    destruct Hu as (Hb & Hl & _). rewrite Hc in Hb.
    apply (attemptsExhausted_false (Some a) Ha) in Hb.
    unfold userOk. cbn. rewrite Hc, Hv.
    repeat split; try apply Hb; try assumption; discriminate.
  - cbn [fst]. apply tableOk_update; auto with keys. userOk_fields.
Qed.

Lemma login_tableOk d ev t : tableOk t -> tableOk (fst (login d ev t)).
Proof.
  intros Hok.
  destruct (truthy (bodyEmail ev)) eqn:He;
    [|unfold login; rewrite He; assumption].
  destruct (truthy (bodyPassword ev)) eqn:Hp;
    [|unfold login; rewrite He, Hp; assumption].
  destruct (scan (byEmail (bodyEmail ev)) t) as [|u rest] eqn:Hscan;
    [unfold login; rewrite He, Hp, Hscan; assumption|].
  destruct (scan_head _ _ _ _ Hscan) as [Hin _].
  pose proof (tableOk_In t u Hok Hin) as Hu.
  rewrite (login_found d ev t u rest) by assumption.
  destruct (MAX_LOGIN_ATTEMPTS <=? _); [assumption|].
  cbv zeta.
  assert (H1 : tableOk (update (userId u) (recordAttempt (now d)) t)).
  { apply tableOk_update; auto with keys. }
  destruct (negb (bcryptCompare _ _)); [assumption|].
  destruct (negb (isEmailVerified u)); [assumption|].
  destruct (suspicious (performCognitiveCheck d ev u)); cbn [fst];
    rewrite update_update by auto with keys;
    (apply tableOk_update; [assumption | assumption | reflexivity | userOk_fields]).
Qed.

Lemma verifyLoginOTP_tableOk d ev t :
  tableOk t -> tableOk (fst (verifyLoginOTP d ev t)).
Proof.
  intros Hok. unfold verifyLoginOTP.
  destruct (negb (truthy (bodySessionId ev)) || negb (truthy (bodyOtp ev)));
    [assumption|].
  destruct (scan (bySession (bodySessionId ev)) t) as [|u rest] eqn:Hscan;
    [assumption|].
  destruct (scan_head _ _ _ _ Hscan) as [Hin _].
  pose proof (tableOk_In t u Hok Hin) as Hu.
  destruct (attemptsExhausted (loginOTPAttempts u)) eqn:Ha; [assumption|].
  destruct (isOTPExpired d (loginOTPExpiry u)); [assumption|].
  destruct (negb (sameCode (loginOTP u) (bodyOtp ev))).
  - destruct (loginOTPAttempts u) as [a|] eqn:Hc; [|assumption].
    cbn [fst]. apply tableOk_update; auto with keys.
    destruct Hu as (Hb & Hl & Hv). rewrite Hc in Hl.
    apply (attemptsExhausted_false (Some a) Ha) in Hl.
    unfold userOk. cbn. rewrite Hc.
    repeat split; try apply Hl; assumption.
  - destruct (pendingSessionData u); [|assumption].
    cbn [fst]. apply tableOk_update; auto with keys. userOk_fields.
Qed.

Lemma handle_tableOk r d ev t : tableOk t -> tableOk (fst (handle r d ev t)).
Proof.
  destruct r; cbn [handle];
    auto using signup_tableOk, resendOTP_tableOk, verifyEmail_tableOk,
      login_tableOk, verifyLoginOTP_tableOk.
Qed.

Lemma run_tableOk rs : forall t, tableOk t -> tableOk (run rs t).
Proof.
  induction rs as [|[[r d] ev] rs IH]; intros t Hok; simpl.
  - assumption.
  - apply IH. now apply handle_tableOk.
Qed.

Lemma reachable_tableOk t : reachable t -> tableOk t.
Proof.
  intros [rs ->]. apply run_tableOk. split; constructor.
Qed.

(** C4. In every table the service can reach, the attempt counters of both
    one-time codes are at most [MAX_OTP_ATTEMPTS]; a verification (signup or
    step-up) whose counter has reached the maximum is answered
    [OtpMaxAttemptsExceeded] whatever code is submitted, the stored one
    included, and writes nothing, so the answer stays the same until another
    handler stores a new code. *)
Theorem otp_attempts_capped t :
  reachable t ->
  (forall u, In u t ->
     counterBounded (otpAttempts u) /\ counterBounded (loginOTPAttempts u))
  /\ (forall d ev u rest a,
        truthy (bodyEmail ev) = true ->
        truthy (bodyOtp ev) = true ->
        scan (byEmail (bodyEmail ev)) t = u :: rest ->
        otpAttempts u = Some a ->
        MAX_OTP_ATTEMPTS <= a ->
        verifyEmail d ev t = (t, OtpMaxAttemptsExceeded))
  /\ (forall d ev u rest a,
        truthy (bodySessionId ev) = true ->
        truthy (bodyOtp ev) = true ->
        scan (bySession (bodySessionId ev)) t = u :: rest ->
        loginOTPAttempts u = Some a ->
        MAX_OTP_ATTEMPTS <= a ->
        verifyLoginOTP d ev t = (t, OtpMaxAttemptsExceeded)).
Proof.
  intros Hr. apply reachable_tableOk in Hr. split; [|split].
  - intros u Hin. destruct (tableOk_In t u Hr Hin) as (H1 & H2 & _). now split.
  - intros d ev u rest a He Ho Hscan Ha Hmax.
    destruct (scan_head _ _ _ _ Hscan) as [Hin _].
    destruct (tableOk_In t u Hr Hin) as (_ & _ & Hv).
    unfold verifyEmail. rewrite He, Ho, Hscan. cbn [negb orb].
    destruct (isEmailVerified u).
    + rewrite Hv in Ha by reflexivity. injection Ha as <-.
      unfold MAX_OTP_ATTEMPTS in Hmax. lia.
    + rewrite Ha. unfold attemptsExhausted.
      apply Z.leb_le in Hmax. now rewrite Hmax.
  - intros d ev u rest a Hs Ho Hscan Ha Hmax.
    unfold verifyLoginOTP. rewrite Hs, Ho, Hscan, Ha. cbn [negb orb].
    unfold attemptsExhausted. apply Z.leb_le in Hmax. now rewrite Hmax.
Qed.

(** *** The risk assessor *)

Lemma tokenChanged_tokensMatch current last :
  tokenChanged current last = true <-> ~ tokensMatch current last.
Proof.
  unfold tokenChanged, tokensMatch.
  destruct (includes (toLowerCase current) (splitHead " " (toLowerCase last)));
    destruct (includes (toLowerCase last) (splitHead " " (toLowerCase current)));
    cbn; intuition discriminate.
Qed.

(** The amended C1. With a prior device on file, the device sub-check is
    suspicious exactly when the browser or the OS fails the mutual
    leading-token comparison against the prior device: one of the two
    failing is enough. *)
Theorem device_check_either d ev u lastDev :
  lastLoginDevice u = Some lastDev ->
  truthy (browser lastDev) = true ->
  let current := getDeviceFingerprint ev in
  deviceSuspicious (performCognitiveCheck d ev u) = true
  <-> (~ tokensMatch (browser current) (browser lastDev)
       \/ ~ tokensMatch (os current) (os lastDev)).
Proof.
  intros Hlast Hb current. unfold performCognitiveCheck. cbn [deviceSuspicious].
  rewrite Hlast. unfold isDeviceSuspicious. rewrite Hb. cbn [negb].
  fold current. rewrite orb_true_iff.
  now rewrite !tokenChanged_tokensMatch.
Qed.

(** C9, as the code has it. The location that [getIPLocation] returns never
    carries coordinates, whatever the geo database returned, so the location
    check on it never reaches the haversine distance: within one country it
    is decided by the region strings. *)
Theorem getIPLocation_without_coordinates ip lastLoc threshold :
  lat (getIPLocation ip) = None
  /\ lon (getIPLocation ip) = None
  /\ isLocationSuspicious (getIPLocation ip) (Some lastLoc) threshold =
     if String.eqb (country lastLoc) "unknown" then false
     else if negb (String.eqb (country (getIPLocation ip)) (country lastLoc)) then true
     else negb (String.eqb (region (getIPLocation ip)) (region lastLoc)).
Proof.
  assert (Hlat : lat (getIPLocation ip) = None).
  { unfold getIPLocation.
    destruct (negb (truthy ip) || String.eqb ip "unknown"); [reflexivity|].
    destruct geoip as [lookup|]; [|reflexivity].
    now destruct (lookup ip). }
  assert (Hlon : lon (getIPLocation ip) = None).
  { unfold getIPLocation.
    destruct (negb (truthy ip) || String.eqb ip "unknown"); [reflexivity|].
    destruct geoip as [lookup|]; [|reflexivity].
    now destruct (lookup ip). }
  repeat split; try assumption.
  unfold isLocationSuspicious. rewrite Hlat. reflexivity.
Qed.

Lemma keysUnique_single u : keysUnique [u].
Proof. unfold keysUnique. simpl. constructor; [intros [] | constructor]. Qed.

End Properties.

(** ** Further properties of the handlers and of the heuristics *)

Section Coverage.

Context {services : Services}.

Import JsString.

Create HintDb kept.
#[local] Hint Resolve userId_recordAttempt userId_storeStepUp userId_storeLogin
  userId_commitStepUp userId_incOtpAttempts userId_incLoginOTPAttempts
  userId_markVerified userId_setSignupOTP : kept.

(** *** Risk signals *)

Lemma truthy_orElse a b : truthy b = true -> truthy (orElse a b) = true.
Proof. unfold orElse. intros Hb. now destruct (truthy a) eqn:E. Qed.

Lemma getIPLocation_fields ip :
  truthy (country (getIPLocation ip)) = true
  /\ truthy (region (getIPLocation ip)) = true
  /\ truthy (city (getIPLocation ip)) = true.
Proof.
  unfold getIPLocation.
  destruct (negb (truthy ip) || String.eqb ip "unknown"); [now repeat split|].
  destruct geoip as [lookup|]; [|now repeat split].
  destruct (lookup ip) as [geo|]; [|now repeat split].
  cbn [country region city]. repeat split; now apply truthy_orElse.
Qed.

(** X1. Whatever the request, the geo database and the user-agent parser
    give, the signals of a login never hold an empty ip, country, region,
    city, device type or device model: an absent value is replaced by its
    default. *)
Theorem signals_never_empty d ev u :
  let check := performCognitiveCheck d ev u in
  truthy (currentIP check) = true
  /\ truthy (country (currentLocation check)) = true
  /\ truthy (region (currentLocation check)) = true
  /\ truthy (city (currentLocation check)) = true
  /\ truthy (deviceType (currentDevice check)) = true
  /\ truthy (deviceModel (currentDevice check)) = true.
Proof.
  cbv zeta. unfold performCognitiveCheck.
  cbn [currentIP currentLocation currentDevice].
  split; [unfold extractIPAddress; now repeat apply truthy_orElse|].
  destruct (getIPLocation_fields (extractIPAddress ev)) as (Hc & Hr & Hy).
  repeat split; try assumption;
    unfold getDeviceFingerprint; cbn; now apply truthy_orElse.
Qed.

(** X2. A request that carries no client address (no source ip in the
    request context, no forwarded-for header in either spelling) is located
    at the all-unknown location, with or without a geo database. *)
Theorem no_address_unknown_location ev :
  httpSourceIp ev = "" ->
  identitySourceIp ev = "" ->
  splitHead "," (xForwardedForLower ev) = "" ->
  splitHead "," (xForwardedForUpper ev) = "" ->
  extractIPAddress ev = "unknown"
  /\ getIPLocation (extractIPAddress ev) = unknownLocation.
Proof.
  intros H1 H2 H3 H4.
  assert (E : extractIPAddress ev = "unknown")
    by (unfold extractIPAddress; now rewrite H1, H2, H3, H4).
  split; [exact E|]. rewrite E. reflexivity.
Qed.

Lemma startsWith_splitHead sep s : startsWith s (splitHead sep s) = true.
Proof.
  induction s as [|c r IH]; simpl; [reflexivity|].
  destruct (Ascii.eqb c sep); simpl; [reflexivity|].
  now rewrite Ascii.eqb_refl.
Qed.

Lemma includes_startsWith s p : startsWith s p = true -> includes s p = true.
Proof. intros H. destruct s; cbn [includes]; now rewrite H. Qed.

Lemma same_token_not_changed current last :
  splitHead " " (toLowerCase current) = splitHead " " (toLowerCase last) ->
  tokenChanged current last = false.
Proof.
  intros E. unfold tokenChanged. rewrite <- E.
  now rewrite (includes_startsWith _ _ (startsWith_splitHead " " (toLowerCase current))).
Qed.

(** X3. A device whose browser and OS start with the same word as those of
    the device on file (compared without case) is never flagged by the
    device check: a version change alone does not count as a new device. *)
Theorem same_family_device_not_suspicious currentDev lastDev :
  splitHead " " (toLowerCase (browser currentDev))
  = splitHead " " (toLowerCase (browser lastDev)) ->
  splitHead " " (toLowerCase (os currentDev))
  = splitHead " " (toLowerCase (os lastDev)) ->
  isDeviceSuspicious currentDev (Some lastDev) = false.
Proof.
  intros Hb Ho. unfold isDeviceSuspicious.
  destruct (negb (truthy (browser lastDev))); [reflexivity|].
  now rewrite (same_token_not_changed _ _ Hb), (same_token_not_changed _ _ Ho).
Qed.

Lemma suspicious_reasons d ev u :
  let check := performCognitiveCheck d ev u in
  (suspicious check = true -> reasons check <> [])
  /\ (suspicious check = false -> reasons check = [])
  /\ (forall label, In label (reasons check) ->
        label = "Login from new location"
        \/ label = "Login from new device or browser"
        \/ label = "Login at unusual time").
Proof.
  cbv zeta. unfold performCognitiveCheck. cbn [suspicious reasons].
  set (l := if truthy (lastLoginIP u) then _ else _).
  set (dv := match lastLoginDevice u with Some _ => _ | None => _ end).
  set (tm := if 3 <=? _ then _ else _).
  destruct l, dv, tm; cbn; repeat split; try discriminate; try reflexivity;
    intros label H; intuition.
Qed.

(** X4. With a known prior location on file, a login located in another
    country is flagged by the location check, whatever the device and the
    time of day: the assessment is suspicious and names the new location. *)
Theorem new_country_flagged d ev u lastLoc :
  truthy (lastLoginIP u) = true ->
  lastLoginLocation u = Some lastLoc ->
  country lastLoc <> "unknown" ->
  country (getIPLocation (extractIPAddress ev)) <> country lastLoc ->
  let check := performCognitiveCheck d ev u in
  locationSuspicious check = true
  /\ suspicious check = true
  /\ In "Login from new location" (reasons check).
Proof.
  intros Hip Hloc Hknown Hdiff. cbv zeta.
  assert (Hl : locationSuspicious (performCognitiveCheck d ev u) = true).
  { unfold performCognitiveCheck. cbn [locationSuspicious].
    rewrite Hip, Hloc. unfold isLocationSuspicious.
    apply String.eqb_neq in Hknown, Hdiff. now rewrite Hknown, Hdiff. }
  split; [exact Hl|].
  unfold performCognitiveCheck in *.
  cbn [locationSuspicious suspicious reasons] in *.
  rewrite Hl. split; [reflexivity | now left].
Qed.

(** *** The rate limiter *)

(** X5. With the window of [RATE_LIMIT_WINDOW_MINUTES] that [login] passes
    and a positive maximum, the remaining attempts that the rate limiter
    reports are the maximum minus the attempts inside the window, never
    below 0 and never above the maximum, and the limiter reports [limited]
    exactly when no attempt remains. *)
Theorem remaining_attempts_sound d attempts m :
  0 < m ->
  let r := checkRateLimit d attempts RATE_LIMIT_WINDOW_MINUTES m in
  remainingAttempts r
  = Z.max 0 (m - attemptsInWindow d RATE_LIMIT_WINDOW_MINUTES attempts)
  /\ 0 <= remainingAttempts r <= m
  /\ (limited r = true <-> remainingAttempts r = 0).
Proof.
  intros Hm. cbv zeta. unfold checkRateLimit, attemptsInWindow.
  destruct attempts as [|a l].
  - cbn. repeat split; intros; try discriminate; lia.
  - cbn [limited remainingAttempts].
    set (n := Z.of_nat _). assert (0 <= n) by (unfold n; lia).
    rewrite Z.leb_le. lia.
Qed.

Lemma none_in_window start l :
  (forall a, In a l -> a <= start) ->
  filter (fun a => start <? a) l = [].
Proof.
  induction l as [|a l IH]; simpl; intros H; [reflexivity|].
  assert (Ha : a <= start) by (apply H; now left).
  apply Z.ltb_ge in Ha. rewrite Ha. apply IH. intros b Hb. apply H. now right.
Qed.

(** X6. The rate limit lapses: when every recorded attempt of every user is
    at least [RATE_LIMIT_WINDOW_MINUTES] old, [login] does not answer
    [RateLimited], however many attempts are on record. *)
Theorem rate_limit_lapses d ev t :
  (forall u a, In u t -> In a (loginAttempts u) ->
     a <= now d - RATE_LIMIT_WINDOW_MINUTES * 60 * 1000) ->
  forall r, snd (login d ev t) <> RateLimited r.
Proof.
  intros Hold r.
  destruct (truthy (bodyEmail ev)) eqn:He;
    [|unfold login; rewrite He; discriminate].
  destruct (truthy (bodyPassword ev)) eqn:Hp;
    [|unfold login; rewrite He, Hp; discriminate].
  destruct (scan (byEmail (bodyEmail ev)) t) as [|u rest] eqn:Hscan;
    [unfold login; rewrite He, Hp, Hscan; discriminate|].
  destruct (scan_head _ _ _ _ Hscan) as [Hin _].
  rewrite (login_found d ev t u rest) by assumption.
  unfold attemptsInWindow. rewrite none_in_window by (intros a Ha; now apply (Hold u)).
  cbn [List.length Z.of_nat]. change (MAX_LOGIN_ATTEMPTS <=? 0) with false.
  cbv zeta.
  destruct (negb (bcryptCompare _ _)); [discriminate|].
  destruct (negb (isEmailVerified u)); [discriminate|].
  destruct (suspicious (performCognitiveCheck d ev u)); discriminate.
Qed.

(** *** What [login] answers *)

(** X7. [login] returns a token only to a request whose email has an
    account, whose password passes [bcrypt.compare] against the stored
    hash, whose account is email-verified, that is under the rate limit and
    that the risk assessment finds not suspicious; the token is signed for
    that account. *)
Theorem token_requires_all_checks d ev t t' tok :
  login d ev t = (t', Authenticated tok) ->
  exists u rest,
    scan (byEmail (bodyEmail ev)) t = u :: rest
    /\ bcryptCompare (bodyPassword ev) (passwordHash u) = true
    /\ isEmailVerified u = true
    /\ attemptsInWindow d RATE_LIMIT_WINDOW_MINUTES (loginAttempts u)
       < MAX_LOGIN_ATTEMPTS
    /\ suspicious (performCognitiveCheck d ev u) = false
    /\ tok = jwtSign (userId u) (email u).
Proof.
  intros H.
  destruct (truthy (bodyEmail ev)) eqn:He;
    [|unfold login in H; rewrite He in H; discriminate].
  destruct (truthy (bodyPassword ev)) eqn:Hp;
    [|unfold login in H; rewrite He, Hp in H; discriminate].
  destruct (scan (byEmail (bodyEmail ev)) t) as [|u rest] eqn:Hscan;
    [unfold login in H; rewrite He, Hp, Hscan in H; discriminate|].
  rewrite (login_found d ev t u rest) in H by assumption.
  destruct (MAX_LOGIN_ATTEMPTS <=? _) eqn:Hlim; [discriminate|].
  cbv zeta in H.
  destruct (bcryptCompare _ _) eqn:Hpw; [|discriminate].
  destruct (isEmailVerified u) eqn:Hv; [|discriminate].
  destruct (suspicious (performCognitiveCheck d ev u)) eqn:Hsus; [discriminate|].
  cbn [negb] in H. injection H as _ <-.
  exists u, rest. apply Z.leb_gt in Hlim. now repeat split.
Qed.

(** X8. A step-up answer always says why: the session id is the fresh uuid
    of the request, the list of reasons is not empty and holds only the
    three fixed labels, and the answer carries no token. *)
Theorem step_up_names_reason d ev t t' sid why :
  login d ev t = (t', StepUpRequired sid why) ->
  sid = newUUID d
  /\ why <> []
  /\ (forall label, In label why ->
        label = "Login from new location"
        \/ label = "Login from new device or browser"
        \/ label = "Login at unusual time")
  /\ issuedToken (snd (login d ev t)) = None.
Proof.
  intros H. rewrite H. cbn [snd issuedToken].
  destruct (truthy (bodyEmail ev)) eqn:He;
    [|unfold login in H; rewrite He in H; discriminate].
  destruct (truthy (bodyPassword ev)) eqn:Hp;
    [|unfold login in H; rewrite He, Hp in H; discriminate].
  destruct (scan (byEmail (bodyEmail ev)) t) as [|u rest] eqn:Hscan;
    [unfold login in H; rewrite He, Hp, Hscan in H; discriminate|].
  rewrite (login_found d ev t u rest) in H by assumption.
  destruct (MAX_LOGIN_ATTEMPTS <=? _); [discriminate|].
  cbv zeta in H.
  destruct (negb (bcryptCompare _ _)); [discriminate|].
  destruct (negb (isEmailVerified u)); [discriminate|].
  destruct (suspicious (performCognitiveCheck d ev u)) eqn:Hsus; [|discriminate].
  injection H as _ <- <-.
  destruct (suspicious_reasons d ev u) as (Hne & _ & Hlabels).
  repeat split; auto.
Qed.

Lemma fresh_profile_not_suspicious d ev u :
  lastLoginLocation u = None ->
  lastLoginDevice u = None ->
  (List.length (loginHistory u) < 3)%nat ->
  suspicious (performCognitiveCheck d ev u) = false.
Proof.
  intros Hl Hd Hh. unfold performCognitiveCheck. cbn [suspicious].
  rewrite Hl, Hd.
  replace (3 <=? Z.of_nat (List.length (loginHistory u))) with false
    by (symmetry; apply Z.leb_gt; lia).
  now destruct (truthy (lastLoginIP u)).
Qed.

(** X9. The first login of an account is never challenged: with no last
    login location and device on file and fewer than three history entries,
    a request under the rate limit with the right password for a verified
    account is answered with a token, wherever it comes from. *)
Theorem first_login_not_challenged d ev t u rest :
  truthy (bodyEmail ev) = true ->
  truthy (bodyPassword ev) = true ->
  scan (byEmail (bodyEmail ev)) t = u :: rest ->
  attemptsInWindow d RATE_LIMIT_WINDOW_MINUTES (loginAttempts u) < MAX_LOGIN_ATTEMPTS ->
  bcryptCompare (bodyPassword ev) (passwordHash u) = true ->
  isEmailVerified u = true ->
  lastLoginLocation u = None ->
  lastLoginDevice u = None ->
  (List.length (loginHistory u) < 3)%nat ->
  snd (login d ev t) = Authenticated (jwtSign (userId u) (email u)).
Proof.
  intros He Hp Hscan Hlim Hpw Hv Hl Hd Hh.
  rewrite (login_found d ev t u rest) by assumption.
  apply Z.leb_gt in Hlim. rewrite Hlim. cbv zeta.
  rewrite Hpw, Hv, (fresh_profile_not_suspicious d ev u) by assumption.
  reflexivity.
Qed.

(** *** Signup *)

Lemma get_put item t : get (userId item) (put item t) = Some item.
Proof.
  unfold get. induction t as [|v t IH]; simpl.
  - now rewrite String.eqb_refl.
  - destruct (String.eqb (userId v) (userId item)) eqn:E; simpl.
    + now rewrite String.eqb_refl.
    + now rewrite E.
Qed.

Lemma length_put item t :
  In (userId item) (map userId t) -> List.length (put item t) = List.length t.
Proof.
  induction t as [|v t IH]; simpl; intros H; [contradiction|].
  destruct (String.eqb (userId v) (userId item)) eqn:E; simpl; [reflexivity|].
  f_equal. apply IH. destruct H as [H | H]; [|assumption].
  rewrite H, String.eqb_refl in E. discriminate.
Qed.

Lemma keys_put item t :
  map userId (put item t) = map userId t
  \/ map userId (put item t) = (map userId t ++ [userId item])%list.
Proof.
  induction t as [|v t IH]; simpl; [now right|].
  destruct (String.eqb (userId v) (userId item)) eqn:E; simpl.
  - apply String.eqb_eq in E. left. now rewrite E.
  - destruct IH as [-> | ->]; [now left | now right].
Qed.

(** After [put], a scan by the email of the new item starts with it, when
    the first item of that email (if any) had the key of the new item. *)
Lemma scan_put_head item t :
  match scan (byEmail (email item)) t with
  | u :: _ => userId u = userId item
  | [] => True
  end ->
  exists rest, scan (byEmail (email item)) (put item t) = item :: rest.
Proof.
  unfold scan. induction t as [|v t IH]; simpl; intros H.
  - unfold byEmail at 1. rewrite String.eqb_refl. now exists [].
  - destruct (String.eqb (userId v) (userId item)) eqn:E; simpl.
    + unfold byEmail at 1. rewrite String.eqb_refl. now eexists.
    + destruct (byEmail (email item) v) eqn:Ev.
      * rewrite H, String.eqb_refl in E. discriminate.
      * now apply IH.
Qed.

(** [signup] once the body passes validation. *)
Lemma signup_valid d ev t :
  truthy (bodyEmail ev) = true ->
  truthy (bodyPassword ev) = true ->
  emailRegexTest (bodyEmail ev) = true ->
  (8 <= String.length (bodyPassword ev))%nat ->
  exists item,
    signup d ev t =
    (put item t,
     AccountCreated (userId item)
       (match scan (byEmail (bodyEmail ev)) t with [] => true | _ :: _ => false end)
       (if mailDelivered d then None else Some (newOTP d)))
    /\ userId item = match scan (byEmail (bodyEmail ev)) t with
                     | u :: _ => userId u
                     | [] => newUUID d
                     end
    /\ createdAt item = match scan (byEmail (bodyEmail ev)) t with
                        | u :: _ => createdAt u
                        | [] => now d
                        end
    /\ email item = bodyEmail ev
    /\ passwordHash item = bcryptHash (bodyPassword ev)
    /\ isEmailVerified item = false
    /\ otp item = Some (newOTP d)
    /\ otpExpiry item = Some (generateOTPExpiry d)
    /\ otpAttempts item = Some 0
    /\ loginRecordOf item = ([], None, "", None, None)
    /\ loginAttempts item = []
    /\ pendingSessionId item = None
    /\ loginOTP item = None.
Proof.
  intros He Hp Hre Hlen. unfold signup. rewrite He, Hp, Hre. cbn [negb orb].
  replace (String.length (bodyPassword ev) <? 8)%nat with false
    by (symmetry; apply Nat.ltb_ge; exact Hlen).
  cbv zeta.
  destruct (scan (byEmail (bodyEmail ev)) t);
    match goal with
    | |- context [put ?i t] => exists i; split; [reflexivity | repeat split]
    end.
Qed.

(** X10. Signup followed by [verifyEmail] with the generated code, not
    after the code's expiry: the account becomes email-verified with the
    hash of the submitted password, its code is cleared and a token is
    returned. The signup response holds the code only when the mail was not
    delivered. *)
Theorem signup_verify_round_trip d1 ev1 t d2 ev2 :
  truthy (bodyEmail ev1) = true ->
  truthy (bodyPassword ev1) = true ->
  emailRegexTest (bodyEmail ev1) = true ->
  (8 <= String.length (bodyPassword ev1))%nat ->
  truthy (newOTP d1) = true ->
  bodyEmail ev2 = bodyEmail ev1 ->
  bodyOtp ev2 = newOTP d1 ->
  now d2 <= generateOTPExpiry d1 ->
  exists uid isNew u',
    snd (signup d1 ev1 t)
    = AccountCreated uid isNew (if mailDelivered d1 then None else Some (newOTP d1))
    /\ snd (verifyEmail d2 ev2 (fst (signup d1 ev1 t)))
       = EmailVerified (jwtSign uid (bodyEmail ev1))
    /\ get uid (fst (verifyEmail d2 ev2 (fst (signup d1 ev1 t)))) = Some u'
    /\ isEmailVerified u' = true
    /\ otp u' = None
    /\ email u' = bodyEmail ev1
    /\ passwordHash u' = bcryptHash (bodyPassword ev1).
Proof.
  intros He Hp Hre Hlen Hcode He2 Ho2 Hexp.
  destruct (signup_valid d1 ev1 t He Hp Hre Hlen)
    as (item & Hs & Hid & _ & Hmail & Hhash & Hv & Hotp & Hexpiry & Hatt & _).
  rewrite Hs. cbn [fst snd].
  destruct (scan_put_head item t) as [rest Hscan].
  { rewrite Hmail. destruct (scan (byEmail (bodyEmail ev1)) t); [trivial|].
    now rewrite Hid. }
  assert (Hverify : verifyEmail d2 ev2 (put item t)
                    = (update (userId item) (markVerified (now d2)) (put item t),
                       EmailVerified (jwtSign (userId item) (email item)))).
  { unfold verifyEmail. rewrite He2, Ho2, He, Hcode. cbn [negb orb].
    rewrite <- Hmail, Hscan, Hv, Hatt. cbn [attemptsExhausted].
    change (MAX_OTP_ATTEMPTS <=? 0) with false.
    rewrite Hexpiry. cbn [isOTPExpired].
    replace (generateOTPExpiry d1 <? now d2) with false
      by (symmetry; apply Z.ltb_ge; exact Hexp).
    rewrite Hotp. cbn [sameCode]. now rewrite String.eqb_refl. }
  rewrite Hverify. cbn [fst snd]. rewrite Hmail.
  eexists (userId item), _, (markVerified (now d2) item).
  split; [reflexivity|]. split; [reflexivity|].
  split; [apply get_update_same; [reflexivity | apply get_put]|].
  repeat split; assumption.
Qed.

(** X11. Signup for an email that already has an account overwrites that
    account in place, without asking for the old password: the item keeps
    its key and creation time, the table keeps its size, and the item gets
    the hash of the new password, is unverified again and has lost its
    login history, last-login data, recorded attempts and pending
    step-up. *)
Theorem signup_overwrites_existing d ev t u rest :
  truthy (bodyEmail ev) = true ->
  truthy (bodyPassword ev) = true ->
  emailRegexTest (bodyEmail ev) = true ->
  (8 <= String.length (bodyPassword ev))%nat ->
  scan (byEmail (bodyEmail ev)) t = u :: rest ->
  exists item,
    snd (signup d ev t)
    = AccountCreated (userId u) false
        (if mailDelivered d then None else Some (newOTP d))
    /\ get (userId u) (fst (signup d ev t)) = Some item
    /\ List.length (fst (signup d ev t)) = List.length t
    /\ createdAt item = createdAt u
    /\ passwordHash item = bcryptHash (bodyPassword ev)
    /\ isEmailVerified item = false
    /\ loginRecordOf item = ([], None, "", None, None)
    /\ loginAttempts item = []
    /\ pendingSessionId item = None.
Proof.
  intros He Hp Hre Hlen Hscan.
  destruct (signup_valid d ev t He Hp Hre Hlen)
    as (item & Hs & Hid & Hcreated & _ & Hhash & Hv & _ & _ & _ & Hrec & Hat & Hpend & _).
  rewrite Hscan in Hs, Hid, Hcreated.
  destruct (scan_head _ _ _ _ Hscan) as [Hin _].
  exists item. rewrite Hs. cbn [fst snd]. rewrite <- Hid.
  split; [reflexivity|]. split; [apply get_put|].
  split; [apply length_put; rewrite Hid; now apply in_map|].
  now repeat split.
Qed.

(** *** What the handlers leave alone *)

Lemma update_same_table k t : update k (fun v => v) t = t.
Proof.
  unfold update. induction t as [|v t IH]; simpl; [reflexivity|].
  rewrite IH. now destruct (String.eqb (userId v) k).
Qed.

Lemma map_kept_update {A} (g : user -> A) k f t :
  (forall v, g (f v) = g v) -> map g (update k f t) = map g t.
Proof.
  intros H. unfold update. rewrite map_map. apply map_ext. intros v.
  now destruct (String.eqb (userId v) k).
Qed.

Ltac shape_same :=
  exists "", (fun v => v); cbn [fst snd]; rewrite update_same_table;
  split; [reflexivity | split; [reflexivity | intros _ v; reflexivity]].

Ltac shape_update :=
  eexists _, _; cbn [fst snd];
  split; [reflexivity | split; [intros v; reflexivity | intros _ v; reflexivity]].

Ltac shape_success :=
  eexists _, _; cbn [fst snd];
  split; [reflexivity
         | split; [intros v; reflexivity
                  | intros H; exfalso; eapply H; reflexivity]].

Lemma resendOTP_shape d ev t : updateOf ResendOTP d ev t.
Proof.
  unfold updateOf. cbn [handle]. unfold resendOTP.
  destruct (negb (truthy (bodyEmail ev))); [shape_same|].
  destruct (scan (byEmail (bodyEmail ev)) t) as [|u rest]; [shape_same|].
  destruct (isEmailVerified u); [shape_same|].
  destruct (mailDelivered d); shape_update.
Qed.

Lemma verifyEmail_shape d ev t : updateOf VerifyEmail d ev t.
Proof.
  unfold updateOf. cbn [handle]. unfold verifyEmail.
  destruct (negb (truthy (bodyEmail ev)) || negb (truthy (bodyOtp ev)));
    [shape_same|].
  destruct (scan (byEmail (bodyEmail ev)) t) as [|u rest]; [shape_same|].
  destruct (isEmailVerified u); [shape_same|].
  destruct (attemptsExhausted (otpAttempts u)); [shape_same|].
  destruct (isOTPExpired d (otpExpiry u)); [shape_same|].
  destruct (negb (sameCode (otp u) (bodyOtp ev))).
  - destruct (otpAttempts u); [shape_update | shape_same].
  - shape_update.
Qed.

Lemma login_shape d ev t : updateOf Login d ev t.
Proof.
  unfold updateOf. cbn [handle].
  destruct (truthy (bodyEmail ev)) eqn:He;
    [|unfold login; rewrite He; shape_same].
  destruct (truthy (bodyPassword ev)) eqn:Hp;
    [|unfold login; rewrite He, Hp; shape_same].
  destruct (scan (byEmail (bodyEmail ev)) t) as [|u rest] eqn:Hscan;
    [unfold login; rewrite He, Hp, Hscan; shape_same|].
  rewrite (login_found d ev t u rest) by assumption.
  destruct (MAX_LOGIN_ATTEMPTS <=? _); [shape_same|].
  cbv zeta.
  destruct (negb (bcryptCompare _ _)); [shape_update|].
  destruct (negb (isEmailVerified u)); [shape_update|].
  destruct (suspicious (performCognitiveCheck d ev u));
    rewrite update_update by (intros v; reflexivity);
    [shape_update | shape_success].
Qed.

Lemma verifyLoginOTP_shape d ev t : updateOf VerifyLoginOTP d ev t.
Proof.
  unfold updateOf. cbn [handle]. unfold verifyLoginOTP.
  destruct (negb (truthy (bodySessionId ev)) || negb (truthy (bodyOtp ev)));
    [shape_same|].
  destruct (scan (bySession (bodySessionId ev)) t) as [|u rest]; [shape_same|].
  destruct (attemptsExhausted (loginOTPAttempts u)); [shape_same|].
  destruct (isOTPExpired d (loginOTPExpiry u)); [shape_same|].
  destruct (negb (sameCode (loginOTP u) (bodyOtp ev))).
  - destruct (loginOTPAttempts u); [shape_update | shape_same].
  - destruct (pendingSessionData u); [shape_success | shape_same].
Qed.

Lemma handle_shape r d ev t : r <> Signup -> updateOf r d ev t.
Proof.
  destruct r; intros H; [congruence | ..];
    auto using resendOTP_shape, verifyEmail_shape, login_shape,
      verifyLoginOTP_shape.
Qed.

(** X12. Only [signup] creates an item or changes who an item is: after
    any other handler, the table holds the same items in the same order
    with the same key, email, password hash and creation time. *)
Theorem only_signup_changes_identity r d ev t :
  r <> Signup ->
  map identityOf (fst (handle r d ev t)) = map identityOf t.
Proof.
  intros Hr. destruct (handle_shape r d ev t Hr) as (k & f & -> & Hid & _).
  now apply map_kept_update.
Qed.

(** X13. Outside [signup], the login history and the last-login fields of
    every item change only when the answer is [Authenticated]: a rejected
    login, a step-up request, a failed or expired one-time code and the
    email-verification handlers leave them as they were. *)
Theorem login_record_changes_only_on_success r d ev t :
  r <> Signup ->
  (forall tok, snd (handle r d ev t) <> Authenticated tok) ->
  map loginRecordOf (fst (handle r d ev t)) = map loginRecordOf t.
Proof.
  intros Hr Hno. destruct (handle_shape r d ev t Hr) as (k & f & -> & _ & Hrec).
  apply map_kept_update. now apply Hrec.
Qed.

Lemma handle_keeps_keys r d ev t :
  map userId (fst (handle r d ev t)) = map userId t
  \/ map userId (fst (handle r d ev t)) = (map userId t ++ [newUUID d])%list.
Proof.
  destruct r.
  - cbn [handle]. unfold signup.
    destruct (negb (truthy (bodyEmail ev)) || negb (truthy (bodyPassword ev)));
      [now left|].
    destruct (negb (emailRegexTest (bodyEmail ev))); [now left|].
    destruct (String.length (bodyPassword ev) <? 8)%nat; [now left|].
    cbv zeta. cbn [fst].
    match goal with |- context [put ?i t] => destruct (keys_put i t) as [E | E] end;
      rewrite E; [now left|].
    cbn [userId].
    destruct (scan (byEmail (bodyEmail ev)) t) as [|u rest] eqn:Hscan;
      [now right|].
    (* the key of an existing item is in the table: [put] replaced it *)
    exfalso. destruct (scan_head _ _ _ _ Hscan) as [Hin _].
    match type of E with
    | map userId (put ?i t) = _ =>
        pose proof (length_put i t (in_map userId t u Hin)) as L
    end.
    apply (f_equal (@List.length string)) in E.
    rewrite !length_map, length_app, length_map in E. simpl in E, L. lia.
  - left. destruct (handle_shape ResendOTP d ev t) as (k & f & -> & Hid & _);
      [discriminate|].
    apply map_kept_update. intros v. now injection (Hid v).
  - left. destruct (handle_shape VerifyEmail d ev t) as (k & f & -> & Hid & _);
      [discriminate|].
    apply map_kept_update. intros v. now injection (Hid v).
  - left. destruct (handle_shape Login d ev t) as (k & f & -> & Hid & _);
      [discriminate|].
    apply map_kept_update. intros v. now injection (Hid v).
  - left. destruct (handle_shape VerifyLoginOTP d ev t) as (k & f & -> & Hid & _);
      [discriminate|].
    apply map_kept_update. intros v. now injection (Hid v).
Qed.

(** X14. No handler deletes an item: over any sequence of requests, every
    key of the table stays in the table, in the same order, and new keys
    are only added at the end. *)
Theorem no_item_deleted rs t :
  exists added, map userId (run rs t) = (map userId t ++ added)%list.
Proof.
  revert t. induction rs as [|[[r d] ev] rs IH]; intros t; simpl.
  - exists []. now rewrite app_nil_r.
  - destruct (IH (fst (handle r d ev t))) as [added ->].
    destruct (handle_keeps_keys r d ev t) as [-> | ->].
    + now exists added.
    + exists (newUUID d :: added). now rewrite <- app_assoc.
Qed.

Lemma nodup_map_determines {A B} (g : A -> B) t u v :
  NoDup (map g t) -> In u t -> In v t -> g u = g v -> u = v.
Proof.
  induction t as [|w t IH]; simpl; intros Hnd Hu Hv E; [contradiction|].
  inversion Hnd as [|? ? Hnot Hnd']; subst.
  destruct Hu as [-> | Hu], Hv as [-> | Hv]; try reflexivity.
  - exfalso. apply Hnot. rewrite E. now apply in_map.
  - exfalso. apply Hnot. rewrite <- E. now apply in_map.
  - now apply IH.
Qed.

Lemma emailsUnique_put item t :
  keysUnique t -> emailsUnique t ->
  (forall v, In v t -> email v = email item -> userId v = userId item) ->
  emailsUnique (put item t).
Proof.
  unfold keysUnique, emailsUnique.
  induction t as [|w t IH]; simpl; intros Hk He Hsame.
  - repeat constructor. intros [].
  - inversion Hk as [|? ? Hknot Hk']; inversion He as [|? ? Henot He']; subst.
    destruct (String.eqb (userId w) (userId item)) eqn:E; simpl.
    + constructor; [|assumption].
      intros Hin. apply in_map_iff in Hin as (v & Hv & Hvin).
      apply Hknot. apply String.eqb_eq in E. rewrite E.
      rewrite <- (Hsame v (or_intror Hvin) Hv). now apply in_map.
    + constructor.
      * intros Hin. apply in_map_iff in Hin as (v & Hv & Hvin).
        apply In_put in Hvin as [-> | Hvin].
        -- rewrite (Hsame w (or_introl eq_refl) (eq_sym Hv)), String.eqb_refl in E.
           discriminate.
        -- apply Henot. rewrite <- Hv. now apply in_map.
      * apply IH; try assumption. intros v Hv. apply Hsame. now right.
Qed.

Lemma scan_nil p t v : scan p t = [] -> In v t -> p v = false.
Proof.
  intros H Hv. destruct (p v) eqn:E; [|reflexivity].
  assert (Hin : In v (scan p t)) by (apply filter_In; now split).
  rewrite H in Hin. contradiction.
Qed.

Lemma handle_unique r d ev t :
  keysUnique t /\ emailsUnique t ->
  keysUnique (fst (handle r d ev t)) /\ emailsUnique (fst (handle r d ev t)).
Proof.
  intros [Hk He]. destruct r.
  - cbn [handle]. unfold signup.
    destruct (negb (truthy (bodyEmail ev)) || negb (truthy (bodyPassword ev)));
      [now split|].
    destruct (negb (emailRegexTest (bodyEmail ev))); [now split|].
    destruct (String.length (bodyPassword ev) <? 8)%nat; [now split|].
    cbv zeta. cbn [fst]. split; [now apply keysUnique_put|].
    apply emailsUnique_put; try assumption.
    cbn [email userId]. intros v Hv Hmail.
    destruct (scan (byEmail (bodyEmail ev)) t) as [|u rest] eqn:Hscan.
    + pose proof (scan_nil _ _ v Hscan Hv) as Hno.
      unfold byEmail in Hno. rewrite Hmail, String.eqb_refl in Hno. discriminate.
    + destruct (scan_head _ _ _ _ Hscan) as [Hu Hue].
      unfold byEmail in Hue. apply String.eqb_eq in Hue.
      f_equal. apply (nodup_map_determines email t v u He Hv Hu). congruence.
  - destruct (handle_shape ResendOTP d ev t) as (k & f & -> & Hid & _);
      [discriminate|].
    unfold keysUnique, emailsUnique.
    rewrite !map_kept_update by (intros v; now injection (Hid v)). now split.
  - destruct (handle_shape VerifyEmail d ev t) as (k & f & -> & Hid & _);
      [discriminate|].
    unfold keysUnique, emailsUnique.
    rewrite !map_kept_update by (intros v; now injection (Hid v)). now split.
  - destruct (handle_shape Login d ev t) as (k & f & -> & Hid & _);
      [discriminate|].
    unfold keysUnique, emailsUnique.
    rewrite !map_kept_update by (intros v; now injection (Hid v)). now split.
  - destruct (handle_shape VerifyLoginOTP d ev t) as (k & f & -> & Hid & _);
      [discriminate|].
    unfold keysUnique, emailsUnique.
    rewrite !map_kept_update by (intros v; now injection (Hid v)). now split.
Qed.

(** X15. In every table the service can reach from the empty table, no two
    items share a key and no two items share an email: signing up again
    with a known email reuses its item instead of adding one. This is for
    requests served one after the other, each [scan] returning every
    matching item. *)
Theorem reachable_unique t :
  reachable t -> keysUnique t /\ emailsUnique t.
Proof.
  intros [rs ->].
  assert (H : forall t0, keysUnique t0 /\ emailsUnique t0 ->
                         keysUnique (run rs t0) /\ emailsUnique (run rs t0)).
  { induction rs as [|[[r d] ev] rs IH]; intros t0 H0; simpl; [assumption|].
    apply IH. now apply handle_unique. }
  apply H. split; constructor.
Qed.

(** *** One-time codes over several requests *)

Lemma scan_update_head p k f t u rest :
  (forall v, p (f v) = p v) ->
  scan p t = u :: rest ->
  scan p (update k f t)
  = (if String.eqb (userId u) k then f u else u) :: update k f rest.
Proof.
  intros Hp Hscan. rewrite scan_update_preserving by assumption.
  now rewrite Hscan.
Qed.

Lemma verifyEmail_wrong_step d ev t u rest a code e :
  truthy (bodyEmail ev) = true ->
  truthy (bodyOtp ev) = true ->
  scan (byEmail (bodyEmail ev)) t = u :: rest ->
  isEmailVerified u = false ->
  otpAttempts u = Some a ->
  a < MAX_OTP_ATTEMPTS ->
  otp u = Some code ->
  bodyOtp ev <> code ->
  otpExpiry u = Some e ->
  now d <= e ->
  verifyEmail d ev t
  = (update (userId u) incOtpAttempts t, OtpInvalid (MAX_OTP_ATTEMPTS - (a + 1)))
  /\ scan (byEmail (bodyEmail ev)) (update (userId u) incOtpAttempts t)
     = incOtpAttempts u :: update (userId u) incOtpAttempts rest.
Proof.
  intros He Ho Hscan Hv Ha Hlt Hc Hne Hx Hnow. split.
  - unfold verifyEmail. rewrite He, Ho, Hscan, Hv, Ha, Hc, Hx. cbn.
    apply Z.leb_gt in Hlt. rewrite Hlt.
    apply Z.ltb_ge in Hnow. rewrite Hnow.
    apply not_eq_sym, String.eqb_neq in Hne. now rewrite Hne.
  - rewrite (scan_update_head _ _ _ _ u rest) by (reflexivity || assumption).
    now rewrite String.eqb_refl.
Qed.

Lemma wrong_codes_run mail code e wrong :
  truthy mail = true ->
  Forall (fun de : draws * event =>
            bodyEmail (snd de) = mail
            /\ truthy (bodyOtp (snd de)) = true
            /\ bodyOtp (snd de) <> code
            /\ now (fst de) <= e) wrong ->
  forall t u rest a,
    scan (byEmail mail) t = u :: rest ->
    isEmailVerified u = false ->
    otp u = Some code ->
    otpExpiry u = Some e ->
    otpAttempts u = Some a ->
    a + Z.of_nat (List.length wrong) <= MAX_OTP_ATTEMPTS ->
    exists u' rest',
      scan (byEmail mail)
        (run (map (fun de => (VerifyEmail, fst de, snd de)) wrong) t) = u' :: rest'
      /\ isEmailVerified u' = false
      /\ otpAttempts u' = Some (a + Z.of_nat (List.length wrong)).
Proof.
  intros Hmail Hall. induction Hall as [|[d ev] wrong (Hm & Ho & Hne & Hnow) _ IH];
    intros t u rest a Hscan Hv Hc Hx Ha Hle.
  - exists u, rest. simpl. rewrite Z.add_0_r. now repeat split.
  - cbn [fst snd] in *. subst mail.
    cbn [map run handle fst snd List.length] in *.
    destruct (verifyEmail_wrong_step d ev t u rest a code e) as [Hstep Hscan'];
      try assumption; [lia|].
    rewrite Hstep. cbn [fst].
    destruct (IH _ _ _ (a + 1) Hscan') as (u' & rest' & Hs & Hv' & Ha');
      try assumption.
    + cbn. now rewrite Ha.
    + lia.
    + exists u', rest'. repeat split; try assumption.
      rewrite Ha'. f_equal. lia.
Qed.

(** X16. Three wrong codes lock the signup verification: for an unverified
    account whose counter is 0, after three [verifyEmail] requests with
    codes other than the stored one (made before the code expires), every
    further [verifyEmail] is answered [OtpMaxAttemptsExceeded] and writes
    nothing, at any time and for any code, the stored one included. *)
Theorem three_wrong_codes_lock mail code e wrong t u rest d ev :
  truthy mail = true ->
  scan (byEmail mail) t = u :: rest ->
  isEmailVerified u = false ->
  otp u = Some code ->
  otpExpiry u = Some e ->
  otpAttempts u = Some 0 ->
  List.length wrong = 3%nat ->
  Forall (fun de : draws * event =>
            bodyEmail (snd de) = mail
            /\ truthy (bodyOtp (snd de)) = true
            /\ bodyOtp (snd de) <> code
            /\ now (fst de) <= e) wrong ->
  bodyEmail ev = mail ->
  truthy (bodyOtp ev) = true ->
  let locked := run (map (fun de => (VerifyEmail, fst de, snd de)) wrong) t in
  verifyEmail d ev locked = (locked, OtpMaxAttemptsExceeded).
Proof.
  intros Hmail Hscan Hv Hc Hx Ha Hlen Hall Hev Ho. cbv zeta.
  destruct (wrong_codes_run mail code e wrong Hmail Hall t u rest 0)
    as (u' & rest' & Hs & Hv' & Ha'); try assumption.
  - rewrite Hlen. unfold MAX_OTP_ATTEMPTS. lia.
  - unfold verifyEmail. rewrite Hev, Hmail, Ho, Hs, Hv', Ha', Hlen. reflexivity.
Qed.

(** X17. [resendOTP] unlocks: for an unverified account, whatever its
    counter and stored code were, and whether or not the mail is delivered,
    a [verifyEmail] with the new code that is not later than five minutes
    after the resend verifies the email and returns a token. *)
Theorem resend_unlocks d1 ev1 t u rest d2 ev2 :
  truthy (bodyEmail ev1) = true ->
  scan (byEmail (bodyEmail ev1)) t = u :: rest ->
  isEmailVerified u = false ->
  truthy (newOTP d1) = true ->
  bodyEmail ev2 = bodyEmail ev1 ->
  bodyOtp ev2 = newOTP d1 ->
  now d2 <= generateOTPExpiry d1 ->
  snd (resendOTP d1 ev1 t) = (if mailDelivered d1 then OtpSent else MailFailed)
  /\ snd (verifyEmail d2 ev2 (fst (resendOTP d1 ev1 t)))
     = EmailVerified (jwtSign (userId u) (email u)).
Proof.
  intros He Hscan Hv Hcode He2 Ho2 Hexp.
  set (f := setSignupOTP (newOTP d1) (generateOTPExpiry d1) (now d1)).
  assert (Hre : resendOTP d1 ev1 t
                = (update (userId u) f t,
                   if mailDelivered d1 then OtpSent else MailFailed)).
  { unfold resendOTP. rewrite He, Hscan, Hv. cbn [negb].
    now destruct (mailDelivered d1). }
  rewrite Hre. cbn [fst snd]. split; [reflexivity|].
  assert (Hs : scan (byEmail (bodyEmail ev1)) (update (userId u) f t)
               = f u :: update (userId u) f rest).
  { rewrite (scan_update_head _ _ _ _ u rest) by (reflexivity || assumption).
    now rewrite String.eqb_refl. }
  unfold verifyEmail. rewrite He2, Ho2, He, Hcode, Hs. cbn.
  rewrite Hv. change (MAX_OTP_ATTEMPTS <=? 0) with false.
  apply Z.ltb_ge in Hexp. rewrite Hexp.
  now rewrite String.eqb_refl.
Qed.

Lemma scan_update_cleared p k f t u :
  scan p t = [u] ->
  userId u = k ->
  (forall v, p (f v) = false) ->
  scan p (update k f t) = [].
Proof.
  intros Hscan Hk Hf. unfold scan, update.
  assert (H : forall v, In v t -> p v = true -> userId v = k).
  { intros v Hv Hp. assert (Hin : In v (scan p t)) by (apply filter_In; now split).
    rewrite Hscan in Hin. destruct Hin as [<- | []]. exact Hk. }
  clear Hscan. induction t as [|v t IH]; simpl; [reflexivity|].
  destruct (String.eqb (userId v) k) eqn:E.
  - rewrite Hf. apply IH. intros w Hw. apply H. now right.
  - destruct (p v) eqn:Hp.
    + rewrite (H v (or_introl eq_refl) Hp), String.eqb_refl in E. discriminate.
    + apply IH. intros w Hw. apply H. now right.
Qed.

(** X18. A step-up code works once: after [verifyLoginOTP] has completed a
    login for a session id that only one item held, every further
    [verifyLoginOTP] with that session id is answered [InvalidSession] and
    writes nothing, the same code included. *)
Theorem step_up_single_use d ev t t' tok u d' ev' :
  verifyLoginOTP d ev t = (t', Authenticated tok) ->
  scan (bySession (bodySessionId ev)) t = [u] ->
  bodySessionId ev' = bodySessionId ev ->
  truthy (bodyOtp ev') = true ->
  verifyLoginOTP d' ev' t' = (t', InvalidSession).
Proof.
  intros H Hone Hs Ho.
  assert (Hsid : truthy (bodySessionId ev) = true).
  { unfold verifyLoginOTP in H. destruct (truthy (bodySessionId ev)); [reflexivity|].
    discriminate. }
  apply verifyLoginOTP_Authenticated in H as (u0 & rest & data & Hscan & _ & ->).
  rewrite Hone in Hscan. injection Hscan as <- <-.
  unfold verifyLoginOTP. rewrite Hs, Hsid, Ho. cbn [negb orb].
  now rewrite (scan_update_cleared _ _ _ _ u Hone eq_refl).
Qed.

(** X19. A new step-up supersedes the pending one: when a login of the user
    who holds the pending session [old] is answered with a step-up for
    another session id, [verifyLoginOTP] with [old] is answered
    [InvalidSession] from then on. *)
Theorem new_step_up_supersedes d ev t t' sid why u rest old d' ev' :
  login d ev t = (t', StepUpRequired sid why) ->
  scan (byEmail (bodyEmail ev)) t = u :: rest ->
  scan (bySession old) t = [u] ->
  sid <> old ->
  bodySessionId ev' = old ->
  truthy old = true ->
  truthy (bodyOtp ev') = true ->
  verifyLoginOTP d' ev' t' = (t', InvalidSession).
Proof.
  intros H Hscan Hone Hne Hs Hold Ho.
  destruct (truthy (bodyEmail ev)) eqn:He;
    [|unfold login in H; rewrite He in H; discriminate].
  destruct (truthy (bodyPassword ev)) eqn:Hp;
    [|unfold login in H; rewrite He, Hp in H; discriminate].
  rewrite (login_found d ev t u rest) in H by assumption.
  destruct (MAX_LOGIN_ATTEMPTS <=? _); [discriminate|].
  cbv zeta in H.
  destruct (negb (bcryptCompare _ _)); [discriminate|].
  destruct (negb (isEmailVerified u)); [discriminate|].
  destruct (suspicious (performCognitiveCheck d ev u)); [|discriminate].
  injection H as <- <- _.
  rewrite update_update by (intros v; reflexivity).
  unfold verifyLoginOTP. rewrite Hs, Hold, Ho. cbn [negb orb].
  rewrite (scan_update_cleared _ _ _ _ u Hone eq_refl); [reflexivity|].
  intros v. unfold bySession. cbn.
  apply String.eqb_neq. exact Hne.
Qed.

(** *** The time-of-day check *)

Lemma unusual_time_in_integers (c total : Z) (p : positive) :
  Qgtb (Qmin (Qabs (inject_Z c - inject_Z total / inject_Z (Zpos p))%Q)
          (24 - Qabs (inject_Z c - inject_Z total / inject_Z (Zpos p)))%Q) 6
  = (6 * Zpos p <? Z.abs (c * Zpos p - total))
    && (Z.abs (c * Zpos p - total) <? 18 * Zpos p).
Proof.
  unfold Qgtb.
  set (x := (inject_Z c - inject_Z total / inject_Z (Zpos p))%Q).
  assert (Hx : Qabs x = (Z.abs (c * Zpos p - total) # p)%Q).
  { unfold x, Qabs, Qminus, Qdiv, Qinv, Qplus, Qmult, Qopp, inject_Z.
    cbn [Qnum Qden]. rewrite Pos.mul_1_l. f_equal. f_equal. lia. }
  rewrite Hx. clear Hx x. set (A := Z.abs (c * Zpos p - total)).
  assert (HA : 0 <= A) by (unfold A; lia). clearbody A.
  assert (Hmin : forall m : Q, (6 < m)%Q <-> negb (Qle_bool m 6) = true).
  { intros m. rewrite negb_true_iff. split.
    - intros Hlt. destruct (Qle_bool m 6) eqn:L; [|reflexivity].
      apply Qle_bool_iff in L. exfalso. apply (Qlt_not_le _ _ Hlt L).
    - intros L. apply Qnot_le_lt. intros Hle. apply Qle_bool_iff in Hle.
      congruence. }
  assert (H1 : (6 < (A # p))%Q <-> 6 * Zpos p < A).
  { unfold Qlt. cbn [Qnum Qden]. lia. }
  assert (H2 : (6 < 24 - (A # p))%Q <-> A < 18 * Zpos p).
  { unfold Qlt, Qminus, Qplus, Qopp. cbn [Qnum Qden]. lia. }
  apply eq_true_iff_eq. rewrite <- Hmin, Q.min_glb_lt_iff, H1, H2.
  rewrite andb_true_iff, !Z.ltb_lt. reflexivity.
Qed.

(** X20. With at least three history entries, the time-of-day check flags a
    login exactly when its hour differs from the arithmetic mean of the
    history's hours by more than 6 and less than 18 hours; in whole numbers,
    with [n] entries whose hours sum to [total]:
    [6 n < |hour * n - total| < 18 n]. *)
Theorem unusual_time_criterion d history :
  (3 <= List.length history)%nat ->
  let n := Z.of_nat (List.length history) in
  let total := fold_left Z.add (map (fun e => getHours (timestamp e)) history) 0 in
  let distance := Z.abs (getHours (now d) * n - total) in
  isTimeSuspicious d history = (6 * n <? distance) && (distance <? 18 * n).
Proof.
  intros Hlen. cbv zeta. unfold isTimeSuspicious.
  replace (Z.of_nat (List.length history) <? 3) with false
    by (symmetry; apply Z.ltb_ge; lia).
  cbv zeta. rewrite length_map.
  destruct (Z.of_nat (List.length history)) as [|p|p] eqn:E; try lia.
  apply unusual_time_in_integers.
Qed.

(** *** The protected route *)

Lemma append_assoc (a b c : string) : (a ++ b) ++ c = a ++ b ++ c.
Proof. induction a as [|x a IH]; cbn; [reflexivity | now rewrite IH]. Qed.

Lemma append_nil_r (a : string) : a ++ "" = a.
Proof. induction a as [|x a IH]; cbn; [reflexivity | now rewrite IH]. Qed.

Lemma wordHead_noSpace s r :
  noSpace s = true ->
  wordHead (s ++ r) = s ++ wordHead r /\ wordTail (s ++ r) = wordTail r.
Proof.
  induction s as [|c s IH]; cbn; intros H; [now split|].
  apply andb_true_iff in H as [Hc Hs]. apply negb_true_iff in Hc.
  rewrite Hc. destruct (IH Hs) as [-> ->]. now split.
Qed.

Lemma trimStart_allSpace w s : allSpace w = true -> trimStart (w ++ s) = trimStart s.
Proof.
  induction w as [|c w IH]; cbn; intros H; [reflexivity|].
  apply andb_true_iff in H as [-> Hw]. now apply IH.
Qed.

Lemma trimStart_plain s :
  noSpace s = true -> trimStart s = s.
Proof.
  destruct s as [|c s]; cbn; [reflexivity|]. intros H.
  apply andb_true_iff in H as [Hc _]. apply negb_true_iff in Hc. now rewrite Hc.
Qed.

Lemma trimEnd_plain_end a s :
  noSpace s = true -> truthy s = true -> trimEnd (a ++ s) = a ++ s.
Proof.
  intros Hs Hne.
  assert (Hbase : trimEnd s = s).
  { clear Hne. induction s as [|c s IH]; cbn; [reflexivity|].
    cbn in Hs. apply andb_true_iff in Hs as [Hc Hs]. apply negb_true_iff in Hc.
    rewrite (IH Hs), Hc. now destruct s. }
  induction a as [|c a IH]; cbn; [exact Hbase|].
  rewrite IH. destruct (a ++ s) eqn:E; [|reflexivity].
  destruct a; cbn in E; [|discriminate]. subst s. discriminate.
Qed.

Lemma space_not_lowered c : isSpace c = true -> lowerChar c = c.
Proof.
  destruct c as [[] [] [] [] [] [] [] []]; intros H; try reflexivity;
    discriminate H.
Qed.

Lemma noSpace_toLowerCase s : noSpace (toLowerCase s) = true -> noSpace s = true.
Proof.
  induction s as [|c s IH]; cbn; [reflexivity|]. intros H.
  apply andb_true_iff in H as [Hc Hs]. rewrite (IH Hs), andb_true_r.
  destruct (isSpace c) eqn:E; [|reflexivity].
  rewrite (space_not_lowered c E), E in Hc. discriminate.
Qed.

(** X21. [getUser] accepts a bearer header whatever the letter case of the
    header name and of the scheme and however much white space separates
    scheme and token: when the first header named "authorization" holds
    [scheme ws token], it answers with the stored item whose key the
    verified token names, whole (password hash and one-time codes
    included). *)
Theorem bearer_header_accepted jwtVerify headers t name scheme ws token uid item :
  find (headerIs "authorization") headers = Some (name, scheme ++ ws ++ token) ->
  toLowerCase scheme = "bearer" ->
  allSpace ws = true -> truthy ws = true ->
  noSpace token = true -> truthy token = true ->
  jwtVerify token = Some uid ->
  get uid t = Some item ->
  getUser jwtVerify headers t = UserFetched item.
Proof.
  intros Hfind Hscheme Hws Hwne Htok Htne Hverify Hget.
  assert (Hplain : noSpace scheme = true)
    by (apply noSpace_toLowerCase; now rewrite Hscheme).
  assert (Hsne : truthy scheme = true) by (destruct scheme; [discriminate|reflexivity]).
  unfold getUser, getAuthorizationHeader. rewrite Hfind. cbn [snd].
  replace (truthy (scheme ++ ws ++ token)) with true
    by (destruct scheme; [discriminate | reflexivity]).
  cbn [negb].
  assert (Htrim : trim (scheme ++ ws ++ token) = scheme ++ ws ++ token).
  { unfold trim.
    replace (trimStart (scheme ++ ws ++ token)) with (scheme ++ ws ++ token).
    - rewrite <- (append_assoc scheme ws token) at 1.
      rewrite (trimEnd_plain_end (scheme ++ ws) token Htok Htne).
      now rewrite append_assoc.
    - destruct scheme as [|c sch]; [discriminate|]. cbn in Hplain |- *.
      apply andb_true_iff in Hplain as [Hc _]. apply negb_true_iff in Hc.
      now rewrite Hc. }
  rewrite Htrim. unfold schemeAndToken.
  destruct (wordHead_noSpace scheme (ws ++ token) Hplain) as [Hh Ht].
  destruct ws as [|w ws']; [discriminate|].
  cbn in Hws. apply andb_true_iff in Hws as [Hw Hws'].
  assert (Hhead : wordHead (String w ws' ++ token) = "") by (cbn; now rewrite Hw).
  assert (Htail : wordTail (String w ws' ++ token) = String w ws' ++ token)
    by (cbn; now rewrite Hw).
  rewrite Hh, Ht, Hhead, Htail, append_nil_r.
  rewrite (trimStart_allSpace (String w ws') token)
    by (cbn; now rewrite Hw, Hws').
  rewrite (trimStart_plain token Htok).
  destruct (wordHead_noSpace token "" Htok) as [Hth _].
  cbn [wordHead] in Hth. rewrite !append_nil_r in Hth.
  rewrite Hth, Htne, Hscheme. cbn. now rewrite Hverify, Hget.
Qed.

(** X22. [getUser] discloses an item only to a request whose authorization
    header yields a token that [jwt.verify] accepts, and the item is the one
    stored under the key that this token names. *)
Theorem getUser_needs_verified_token jwtVerify headers t item :
  getUser jwtVerify headers t = UserFetched item ->
  exists token,
    token = snd (schemeAndToken (trim (getAuthorizationHeader headers)))
    /\ truthy token = true
    /\ jwtVerify token = Some (userId item)
    /\ In item t.
Proof.
  unfold getUser. intros H.
  destruct (negb (truthy (getAuthorizationHeader headers))); [discriminate|].
  destruct (schemeAndToken (trim (getAuthorizationHeader headers)))
    as [scheme token].
  destruct (truthy token) eqn:Ht; [|discriminate]. cbn [negb orb] in H.
  destruct (negb (String.eqb (toLowerCase scheme) "bearer")); [discriminate|].
  destruct (jwtVerify token) as [uid|] eqn:Hv; [|discriminate].
  destruct (get uid t) as [found|] eqn:Hg; [|discriminate].
  injection H as ->. unfold get in Hg. apply find_some in Hg as [Hin Hk].
  apply String.eqb_eq in Hk. exists token. cbn [snd]. rewrite Hk.
  now repeat split.
Qed.

(** *** Attempts over several requests *)

Lemma all_in_window start l :
  (forall a, In a l -> start < a) ->
  filter (fun a => start <? a) l = l.
Proof.
  induction l as [|a l IH]; simpl; intros H; [reflexivity|].
  assert (Ha : start < a) by (apply H; now left).
  apply Z.ltb_lt in Ha. rewrite Ha. f_equal. apply IH. intros b Hb. apply H. now right.
Qed.

Lemma attemptsInWindow_le d w l :
  attemptsInWindow d w l <= Z.of_nat (List.length l).
Proof.
  unfold attemptsInWindow. apply inj_le.
  induction l as [|a l IH]; simpl; [lia|].
  destruct (now d - w * 60 * 1000 <? a); simpl; lia.
Qed.

(** A login that is not rate limited: the item is still the first of its
    email and has one more recorded attempt. *)
Lemma login_counts d ev t u rest :
  truthy (bodyEmail ev) = true ->
  truthy (bodyPassword ev) = true ->
  scan (byEmail (bodyEmail ev)) t = u :: rest ->
  attemptsInWindow d RATE_LIMIT_WINDOW_MINUTES (loginAttempts u) < MAX_LOGIN_ATTEMPTS ->
  exists u' rest',
    scan (byEmail (bodyEmail ev)) (fst (login d ev t)) = u' :: rest'
    /\ loginAttempts u' = (loginAttempts u ++ [now d])%list.
Proof.
  intros He Hp Hscan Hlim.
  rewrite (login_found d ev t u rest) by assumption.
  apply Z.leb_gt in Hlim. rewrite Hlim. cbv zeta.
  destruct (negb (bcryptCompare _ _)); cbn [fst].
  - rewrite (scan_update_head _ _ _ _ u rest) by (reflexivity || assumption).
    rewrite String.eqb_refl. now eexists _, _.
  - destruct (negb (isEmailVerified u)); cbn [fst].
    + rewrite (scan_update_head _ _ _ _ u rest) by (reflexivity || assumption).
      rewrite String.eqb_refl. now eexists _, _.
    + destruct (suspicious (performCognitiveCheck d ev u)); cbn [fst];
        rewrite update_update by (intros v; reflexivity);
        rewrite (scan_update_head _ _ _ _ u rest) by (reflexivity || assumption);
        rewrite String.eqb_refl; now eexists _, _.
Qed.

Lemma logins_count mail tries :
  truthy mail = true ->
  Forall (fun de : draws * event =>
            bodyEmail (snd de) = mail /\ truthy (bodyPassword (snd de)) = true) tries ->
  forall t u rest,
    scan (byEmail mail) t = u :: rest ->
    (List.length (loginAttempts u) + List.length tries <= 5)%nat ->
    exists u' rest',
      scan (byEmail mail) (run (map (fun de => (Login, fst de, snd de)) tries) t)
      = u' :: rest'
      /\ loginAttempts u' = (loginAttempts u ++ map (fun de => now (fst de)) tries)%list.
Proof.
  intros Hmail Hall. induction Hall as [|[d ev] tries [Hm Hp] _ IH];
    intros t u rest Hscan Hlen.
  - exists u, rest. simpl. now rewrite app_nil_r.
  - cbn [fst snd] in *. subst mail.
    cbn [map run handle fst snd List.length] in *.
    destruct (login_counts d ev t u rest Hmail Hp Hscan) as (u1 & rest1 & Hs1 & Ha1).
    { pose proof (attemptsInWindow_le d RATE_LIMIT_WINDOW_MINUTES (loginAttempts u)).
      unfold MAX_LOGIN_ATTEMPTS. lia. }
    destruct (IH _ _ _ Hs1) as (u' & rest' & Hs & Ha).
    { rewrite Ha1, length_app. simpl. lia. }
    exists u', rest'. split; [exact Hs|].
    rewrite Ha, Ha1, <- app_assoc. reflexivity.
Qed.

(** X25. Five attempts, then the limit: for an account without recorded
    attempts, after five [login] requests for its email, whatever their
    passwords and outcomes, a sixth request made while all five are inside
    the 15-minute window is answered [RateLimited] with a retry-after of 900
    seconds and writes nothing, even with the right password. *)
Theorem five_attempts_then_limited mail tries t u rest d ev :
  truthy mail = true ->
  scan (byEmail mail) t = u :: rest ->
  loginAttempts u = [] ->
  List.length tries = 5%nat ->
  Forall (fun de : draws * event =>
            bodyEmail (snd de) = mail /\ truthy (bodyPassword (snd de)) = true) tries ->
  (forall de, In de tries ->
     now d - RATE_LIMIT_WINDOW_MINUTES * 60 * 1000 < now (fst de)) ->
  bodyEmail ev = mail ->
  truthy (bodyPassword ev) = true ->
  let after := run (map (fun de => (Login, fst de, snd de)) tries) t in
  login d ev after = (after, RateLimited 900).
Proof.
  intros Hmail Hscan Hnone Hlen Hall Hrecent Hev Hp. cbv zeta.
  destruct (logins_count mail tries Hmail Hall t u rest Hscan) as (u' & rest' & Hs & Ha).
  { rewrite Hnone, Hlen. simpl. lia. }
  rewrite Hnone in Ha. cbn [app] in Ha.
  rewrite (login_found d ev _ u' rest'); try assumption;
    [|now rewrite Hev | now rewrite Hev].
  unfold attemptsInWindow. rewrite Ha, all_in_window.
  - now rewrite length_map, Hlen.
  - intros a Hin. apply in_map_iff in Hin as (de & <- & Hde). now apply Hrecent.
Qed.

(** *** The email-keyed handlers *)

Lemma find_app_new e item (t : list Legacy.account) :
  find (Legacy.hasEmail e) t = None ->
  Legacy.accountEmail item = e ->
  find (Legacy.hasEmail e) (t ++ [item]) = Some item.
Proof.
  intros Hnone He. induction t as [|a t IH]; simpl in *.
  - unfold Legacy.hasEmail. now rewrite He, String.eqb_refl.
  - destruct (Legacy.hasEmail e a); [discriminate|]. now apply IH.
Qed.

(** X23. [register] never overwrites: whatever the request, the table it
    leaves is the table it got, or that table with one item added at the end
    for an email that had no item; and then the answer is [Registered] and
    the item holds the hash of the submitted password. *)
Theorem register_only_appends cfg t0 body t :
  fst (Legacy.register cfg t0 body t) = t
  \/ exists e password,
       body = Some (e, password)
       /\ find (Legacy.hasEmail e) t = None
       /\ Legacy.register cfg t0 body t
          = ((t ++ [Legacy.mkAccount e (Legacy.hash cfg password) t0 t0])%list,
             Legacy.Registered).
Proof.
  unfold Legacy.register. destruct body as [[e password]|]; [|now left].
  destruct (negb (truthy e) || negb (truthy password)); [now left|].
  unfold Legacy.getUserByEmail, Legacy.createUser.
  destruct (negb (Legacy.tableConfigured cfg)); [now left|].
  destruct (find (Legacy.hasEmail e) t) eqn:Hfind; [now left|].
  right. now exists e, password.
Qed.

(** X24. Registering and logging in with the same email and password: when
    [bcrypt.compare] accepts a password against its own hash and the
    environment is configured, a registration answered [Registered] is
    followed by a login answered with a token for that email, and a second
    registration of the email is answered [AlreadyExists] and changes
    nothing. *)
Theorem register_login_round_trip cfg t0 t1 e password other t t' :
  Legacy.compare cfg password (Legacy.hash cfg password) = true ->
  truthy (Legacy.hash cfg password) = true ->
  Legacy.secretConfigured cfg = true ->
  truthy other = true ->
  Legacy.register cfg t0 (Some (e, password)) t = (t', Legacy.Registered) ->
  Legacy.login cfg (Some (e, password)) t' = Legacy.Token (Legacy.sign cfg e)
  /\ Legacy.register cfg t1 (Some (e, other)) t' = (t', Legacy.AlreadyExists).
Proof.
  intros Hcmp Hhash Hsecret Hother Hreg.
  unfold Legacy.register in Hreg.
  destruct (truthy e) eqn:He; [|discriminate].
  destruct (truthy password) eqn:Hp; [|discriminate].
  cbn [negb orb] in Hreg.
  unfold Legacy.getUserByEmail, Legacy.createUser in Hreg.
  destruct (Legacy.tableConfigured cfg) eqn:Hcfg; [|discriminate].
  cbn [negb] in Hreg.
  destruct (find (Legacy.hasEmail e) t) eqn:Hfind; [discriminate|].
  injection Hreg as <-.
  pose proof (find_app_new e (Legacy.mkAccount e (Legacy.hash cfg password) t0 t0)
                t Hfind eq_refl) as Hnew.
  split.
  - unfold Legacy.login, Legacy.getUserByEmail.
    rewrite He, Hp, Hcfg, Hnew. cbn. now rewrite Hhash, Hcmp, Hsecret.
  - unfold Legacy.register, Legacy.getUserByEmail.
    now rewrite He, Hother, Hcfg, Hnew.
Qed.

End Coverage.

(** ** The properties on the sample data *)

Import Sample.
#[local] Existing Instance Sample.services.

(** The sixth attempt inside the window, with the right password. *)
Lemma login_rate_limited_witness :
  bcryptCompare "correct horse" (passwordHash limitedAlice) = true
  /\ login at20min (loginRequest "correct horse" "8.8.8.8" "chrome-on-windows")
       [limitedAlice]
     = ([limitedAlice], RateLimited 900).
Proof.
  split; [reflexivity|].
  refine (proj1 (login_rate_limited at20min
                   (loginRequest "correct horse" "8.8.8.8" "chrome-on-windows")
                   [limitedAlice] limitedAlice [] eq_refl eq_refl eq_refl _)).
  vm_compute. discriminate.
Defined.

(** C8 as stated fails: the rate-limited attempt of [limitedAlice] is an
    attempt against an existing user, and it appends nothing. *)
Lemma rate_limited_login_records_nothing :
  let ev := loginRequest "correct horse" "8.8.8.8" "chrome-on-windows" in
  scan (byEmail (bodyEmail ev)) [limitedAlice] = [limitedAlice]
  /\ get "u-1" (fst (login at20min ev [limitedAlice])) = Some limitedAlice
  /\ ~ (exists u',
          get "u-1" (fst (login at20min ev [limitedAlice])) = Some u'
          /\ loginAttempts u' = (loginAttempts limitedAlice ++ [now at20min])%list).
Proof.
  cbv zeta. split; [reflexivity|]. split; [reflexivity|].
  intros [u' [Hget Happ]].
  vm_compute in Hget. injection Hget as <-.
  vm_compute in Happ. discriminate.
Qed.

(** A wrong password, not rate limited: the attempt is recorded. *)
Lemma login_records_attempt_witness :
  exists u',
    get "u-1" (fst (login at20min (loginRequest "wrong" "8.8.8.8" "chrome-on-windows")
                      [alice])) = Some u'
    /\ loginAttempts u' = [now at20min].
Proof.
  refine (login_records_attempt at20min
            (loginRequest "wrong" "8.8.8.8" "chrome-on-windows")
            [alice] alice [] (keysUnique_single alice) eq_refl eq_refl eq_refl _).
  vm_compute. reflexivity.
Defined.

Lemma verifyEmail_already_verified_witness :
  verifyEmail at20min (verifyRequest "123456") [alice] = ([alice], AlreadyVerified).
Proof.
  exact (proj1 (proj2 (proj2 (verifyEmail_already_verified at20min
                                (verifyRequest "123456") [alice] alice []
                                eq_refl eq_refl eq_refl)) eq_refl)).
Defined.

(** The eleventh login of [returningAlice]: the oldest entry leaves. *)
Lemma loginHistory_bounded_fifo_witness :
  let ev := loginRequest "correct horse" "8.8.8.8" "chrome-on-windows" in
  let t' := fst (login at20min ev [returningAlice]) in
  exists u u' entry evicted,
    In u [returningAlice]
    /\ get (userId u) t' = Some u'
    /\ timestamp entry = now at20min
    /\ (loginHistory u ++ [entry])%list = (evicted ++ loginHistory u')%list
    /\ (List.length (loginHistory u') <= 10)%nat
    /\ List.length evicted = (List.length (loginHistory u) + 1 - 10)%nat
    /\ exists kept, loginHistory u' = (kept ++ [entry])%list.
Proof.
  cbv zeta.
  refine (loginHistory_bounded_fifo Login at20min
            (loginRequest "correct horse" "8.8.8.8" "chrome-on-windows")
            [returningAlice] _ "jwt.u-1.alice@example.com"
            (keysUnique_single returningAlice) (or_introl eq_refl) _).
  vm_compute. reflexivity.
Defined.

(** C2 as stated fails, on a table that real requests produce: in
    [challenged] a login from Paris has left the step-up [sid-1] pending;
    the user then logs in from Mountain View without a step-up, and [sid-1]
    with its code still resolves and completes a login. *)
Lemma stale_step_up_survives_login :
  let ev := loginRequest "correct horse" "8.8.8.8" "chrome-on-windows" in
  let t' := fst (login (clock 4000 "" "") ev challenged) in
  reachable challenged
  /\ option_map pendingSessionId (get "u-1" challenged) = Some (Some "sid-1")
  /\ snd (login (clock 4000 "" "") ev challenged)
     = Authenticated "jwt.u-1.alice@example.com"
  /\ option_map pendingSessionId (get "u-1" t') = Some (Some "sid-1")
  /\ option_map loginOTP (get "u-1" t') = Some (Some "654321")
  /\ snd (verifyLoginOTP (clock 5000 "" "")
            (otpRequest "sid-1" "654321" "1.1.1.1" "chrome-on-windows") t')
     = Authenticated "jwt.u-1.alice@example.com".
Proof.
  cbv zeta. split; [unfold challenged; eexists; reflexivity|].
  vm_compute. repeat split.
Qed.

(** The same login of [challenged]: the item has the new last-login data
    and still holds the pending step-up [sid-1] and its code. *)
Lemma login_keeps_pending_step_up_witness :
  exists u',
    get "u-1"
      (fst (login (clock 4000 "" "")
              (loginRequest "correct horse" "8.8.8.8" "chrome-on-windows")
              challenged)) = Some u'
    /\ lastLoginTime u' = Some (t0 + 4000)
    /\ lastLoginIP u' = "8.8.8.8"
    /\ (exists kept,
          loginHistory u'
          = (kept ++ [mkEntry (t0 + 4000) "8.8.8.8" usLocation chromeWindows])%list)
    /\ updatedAt u' = t0 + 4000
    /\ pendingSessionId u' = Some "sid-1"
    /\ loginOTP u' = Some "654321"
    /\ loginOTPAttempts u' = Some 0
    /\ passwordHash u' = "$2a$10$correct horse".
Proof.
  destruct (reachable_tableOk challenged) as [Hk _];
    [unfold challenged; eexists; reflexivity|].
  assert (H : login (clock 4000 "" "")
                (loginRequest "correct horse" "8.8.8.8" "chrome-on-windows")
                challenged
              = (fst (login (clock 4000 "" "")
                        (loginRequest "correct horse" "8.8.8.8" "chrome-on-windows")
                        challenged),
                 Authenticated "jwt.u-1.alice@example.com"))
    by (vm_compute; reflexivity).
  assert (Hscan : scan (byEmail "alice@example.com") challenged
                  = [hd alice challenged]) by (vm_compute; reflexivity).
  destruct (login_keeps_pending_step_up (clock 4000 "" "")
              (loginRequest "correct horse" "8.8.8.8" "chrome-on-windows")
              challenged _ _ (hd alice challenged) [] Hk Hscan H)
    as ((u' & Hget & Htime & Hip & _ & _ & Hkept & _ & _ & Hupd & _ & Hsid & Hcode
          & _ & Hatt & _ & _ & _ & Hhash & _) & _).
  exists u'. repeat split; assumption.
Defined.

(** [returningAlice] logs in from Paris and confirms from an iPhone in
    Mountain View: Paris is what is committed, in the last-login fields and
    in the last entry of the history. *)
Lemma step_up_round_trip_witness :
  let ev1 := loginRequest "correct horse" "1.1.1.1" "chrome-on-windows" in
  let ev2 := otpRequest "sid-new" "654321" "8.8.8.8" "safari-on-ios" in
  let t1 := fst (login at20min ev1 [returningAlice]) in
  exists u',
    get "u-1" (fst (verifyLoginOTP at21min ev2 t1)) = Some u'
    /\ lastLoginIP u' = "1.1.1.1"
    /\ lastLoginLocation u' = Some frLocation
    /\ lastLoginDevice u' = Some chromeWindows
    /\ (exists kept,
          loginHistory u'
          = (kept ++ [mkEntry (now at21min) "1.1.1.1" frLocation chromeWindows])%list)
    /\ (List.length (loginHistory u') <= 10)%nat
    /\ pendingSessionId u' = None.
Proof.
  cbv zeta.
  destruct (step_up_round_trip at20min
              (loginRequest "correct horse" "1.1.1.1" "chrome-on-windows")
              [returningAlice]
              (fst (login at20min
                      (loginRequest "correct horse" "1.1.1.1" "chrome-on-windows")
                      [returningAlice]))
              "sid-new" ["Login from new location"] returningAlice []
              at21min (otpRequest "sid-new" "654321" "8.8.8.8" "safari-on-ios")
              (keysUnique_single returningAlice) eq_refl)
    as (_ & u' & _ & Hget & _ & Hip & Hloc & Hdev & Hkept & _ & Hlen & Hsid & _).
  - vm_compute. reflexivity.
  - intros v [<- | []]. reflexivity.
  - reflexivity.
  - reflexivity.
  - reflexivity.
  - reflexivity.
  - vm_compute. discriminate.
  - exists u'. repeat split; assumption.
Defined.

(** C5 as stated fails: after three wrong step-up codes and more than five
    minutes, the stored code is expired and the answer is
    [OtpMaxAttemptsExceeded], not [OtpExpired]. *)
Lemma exhausted_counter_precedes_expiry :
  let d := clock 400000 "" "" in
  let ev := otpRequest "sid-1" "654321" "1.1.1.1" "chrome-on-windows" in
  (exists u, scan (bySession "sid-1") lockedStepUp = [u]
             /\ expiredAt d (loginOTPExpiry u)
             /\ loginOTP u = Some "654321")
  /\ verifyLoginOTP d ev lockedStepUp = (lockedStepUp, OtpMaxAttemptsExceeded)
  /\ snd (verifyLoginOTP d ev lockedStepUp) <> OtpExpired.
Proof.
  cbv zeta. split; [|split].
  - exists (hd alice lockedStepUp). split; [vm_compute; reflexivity|].
    split; [|vm_compute; reflexivity].
    right. exists (t0 + 303000). split; vm_compute; reflexivity.
  - vm_compute. reflexivity.
  - vm_compute. discriminate.
Qed.

(** One wrong step-up code, then more than five minutes. *)
Lemma expired_otp_rejected_witness :
  verifyLoginOTP (clock 400000 "" "")
    (otpRequest "sid-1" "654321" "1.1.1.1" "chrome-on-windows") waitingStepUp
  = (waitingStepUp, OtpExpired).
Proof.
  refine (proj1 (proj2 (expired_otp_rejected (clock 400000 "" "")
                          (otpRequest "sid-1" "654321" "1.1.1.1" "chrome-on-windows")
                          waitingStepUp (hd alice waitingStepUp) [] eq_refl))
            eq_refl _ _ _).
  - vm_compute. reflexivity.
  - vm_compute. reflexivity.
  - right. exists (t0 + 303000). split; vm_compute; reflexivity.
Defined.

(** Three wrong signup codes, then the right one. *)
Lemma otp_attempts_capped_witness :
  otp (hd alice lockedSignup) = Some "123456"
  /\ verifyEmail (clock 4000 "" "") (verifyRequest "123456") lockedSignup
     = (lockedSignup, OtpMaxAttemptsExceeded).
Proof.
  split; [vm_compute; reflexivity|].
  refine (proj1 (proj2 (otp_attempts_capped lockedSignup _))
            (clock 4000 "" "") (verifyRequest "123456")
            (hd alice lockedSignup) [] 3 eq_refl eq_refl _ _ _).
  - unfold lockedSignup. eexists. reflexivity.
  - vm_compute. reflexivity.
  - vm_compute. reflexivity.
  - vm_compute. discriminate.
Defined.

(** C1 as stated fails: Firefox instead of Chrome on the same Windows is
    flagged by the device sub-check, although the OS passes the
    comparison. *)
Lemma one_changed_property_flags_device :
  let ev := loginRequest "correct horse" "8.8.8.8" "firefox-on-windows" in
  lastLoginDevice returningAlice = Some chromeWindows
  /\ deviceSuspicious (performCognitiveCheck at20min ev returningAlice) = true
  /\ tokensMatch (os (getDeviceFingerprint ev)) (os chromeWindows)
  /\ ~ (deviceSuspicious (performCognitiveCheck at20min ev returningAlice) = true ->
        ~ tokensMatch (browser (getDeviceFingerprint ev)) (browser chromeWindows)
        /\ ~ tokensMatch (os (getDeviceFingerprint ev)) (os chromeWindows)).
Proof.
  cbv zeta.
  assert (Hos : tokensMatch
                  (os (getDeviceFingerprint
                         (loginRequest "correct horse" "8.8.8.8" "firefox-on-windows")))
                  (os chromeWindows))
    by (left; vm_compute; reflexivity).
  split; [reflexivity|]. split; [vm_compute; reflexivity|]. split; [exact Hos|].
  intros H. destruct H as [_ Hno]; [vm_compute; reflexivity|]. exact (Hno Hos).
Qed.

Lemma device_check_either_witness :
  deviceSuspicious
    (performCognitiveCheck at20min
       (loginRequest "correct horse" "8.8.8.8" "firefox-on-windows") returningAlice)
  = true.
Proof.
  refine (proj2 (device_check_either at20min
                   (loginRequest "correct horse" "8.8.8.8" "firefox-on-windows")
                   returningAlice chromeWindows eq_refl eq_refl) (or_introl _)).
  apply tokenChanged_tokensMatch. vm_compute. reflexivity.
Defined.

(** The geo database has coordinates for 8.8.8.8; the location built from
    its answer has none. *)
Lemma getIPLocation_sample :
  (exists ll, option_map geoLL (lookup "8.8.8.8") = Some (Some ll))
  /\ getIPLocation "8.8.8.8" = usLocation
  /\ lat (getIPLocation "8.8.8.8") = None.
Proof.
  split; [eexists; reflexivity|]. split; reflexivity.
Qed.

(** *** The primitives on small inputs *)

Example toLowerCase_sample :
  JsString.toLowerCase "Chrome 120.0" = "chrome 120.0".
Proof. reflexivity. Qed.

Example splitHead_sample :
  JsString.splitHead " " "mobile safari 17.1" = "mobile"
  /\ JsString.splitHead "," "203.0.113.7, 10.0.0.1" = "203.0.113.7"
  /\ JsString.splitHead " " " leading" = "".
Proof. repeat split. Qed.

Example includes_sample :
  JsString.includes "mobile safari 17.1" "safari" = true
  /\ JsString.includes "safari" "mobile" = false
  /\ JsString.includes "safari" "" = true.
Proof. repeat split. Qed.

Example trim_sample :
  JsString.trim "Chrome " = "Chrome"
  /\ JsString.trim "  Windows 10 " = "Windows 10"
  /\ JsString.trim "   " = "".
Proof. repeat split. Qed.

Example emailRegexTest_sample :
  emailRegexTest "alice@example.com" = true
  /\ emailRegexTest "alice@example" = false
  /\ emailRegexTest "alice@.com" = false
  /\ emailRegexTest "al ice@example.com" = false
  /\ emailRegexTest "alice@exa@mple.com" = false
  /\ emailRegexTest "@example.com" = false.
Proof. repeat split. Qed.

Example sliceLast_sample :
  sliceLast 10 [1; 2; 3; 4; 5; 6; 7; 8; 9; 10; 11] = [2; 3; 4; 5; 6; 7; 8; 9; 10; 11]
  /\ sliceLast 10 [1; 2; 3] = [1; 2; 3].
Proof. split; reflexivity. Qed.

Example checkRateLimit_sample :
  checkRateLimit at20min (loginAttempts limitedAlice) 15 5 = mkRateLimit true 0 (Some 5)
  /\ checkRateLimit at20min [t0; t0 + 1000000] 15 5 = mkRateLimit false 4 (Some 1)
  /\ checkRateLimit at20min [] 15 5 = mkRateLimit false 5 None.
Proof. repeat split. Qed.

(** Three logins at hour 9 and a login at hour 21: the deviation is 12. *)
Example isTimeSuspicious_sample :
  let at9 k := mkEntry (k * 86400000 + 9 * 3600000) "8.8.8.8" usLocation chromeWindows in
  isTimeSuspicious (mkDraws (3 * 86400000 + 21 * 3600000) "" "" true)
    [at9 0; at9 1; at9 2] = true
  /\ isTimeSuspicious (mkDraws (3 * 86400000 + 14 * 3600000) "" "" true)
       [at9 0; at9 1; at9 2] = false.
Proof. split; vm_compute; reflexivity. Qed.

(** A login from another country asks for a step-up; the right code within
    five minutes completes it with the location of the login. *)
Example new_country_scenario :
  let ev := loginRequest "correct horse" "1.1.1.1" "chrome-on-windows" in
  let t1 := fst (login at20min ev [returningAlice]) in
  snd (login at20min ev [returningAlice])
  = StepUpRequired "sid-new" ["Login from new location"]
  /\ option_map lastLoginLocation
       (get "u-1" (fst (verifyLoginOTP at21min
                          (otpRequest "sid-new" "654321" "1.1.1.1" "chrome-on-windows") t1)))
     = Some (Some frLocation).
Proof. split; vm_compute; reflexivity. Qed.

(** *** The further properties on the sample data *)

Lemma no_address_unknown_location_witness :
  getIPLocation (extractIPAddress anonymousRequest) = unknownLocation.
Proof.
  exact (proj2 (no_address_unknown_location anonymousRequest
                  eq_refl eq_refl eq_refl eq_refl)).
Defined.

(** A newer Chrome on a newer Windows, written in another letter case. *)
Lemma same_family_device_not_suspicious_witness :
  isDeviceSuspicious chrome121Windows11 (Some chromeWindows) = false.
Proof.
  exact (same_family_device_not_suspicious chrome121Windows11 chromeWindows
           eq_refl eq_refl).
Defined.

Lemma new_country_flagged_witness :
  suspicious
    (performCognitiveCheck at20min
       (loginRequest "correct horse" "1.1.1.1" "chrome-on-windows") returningAlice)
  = true.
Proof.
  refine (proj1 (proj2 (new_country_flagged at20min
                          (loginRequest "correct horse" "1.1.1.1" "chrome-on-windows")
                          returningAlice usLocation eq_refl eq_refl _ _)));
    vm_compute; discriminate.
Defined.

(** Of three attempts, two are inside the fifteen minutes before
    [at20min]: three of the five attempts remain. *)
Lemma remaining_attempts_sound_witness :
  remainingAttempts
    (checkRateLimit at20min [t0; t0 + 1000000; t0 + 1100000]
       RATE_LIMIT_WINDOW_MINUTES MAX_LOGIN_ATTEMPTS) = 3
  /\ limited
       (checkRateLimit at20min [t0; t0 + 1000000; t0 + 1100000]
          RATE_LIMIT_WINDOW_MINUTES MAX_LOGIN_ATTEMPTS) = false.
Proof.
  split.
  - refine (eq_trans
              (proj1 (remaining_attempts_sound at20min
                        [t0; t0 + 1000000; t0 + 1100000] MAX_LOGIN_ATTEMPTS _)) _);
      reflexivity.
  - reflexivity.
Defined.

(** The attempts of [limitedAlice], fifteen minutes after the last one. *)
Lemma rate_limit_lapses_witness :
  (exists tok,
     snd (login (clock 2040000 "" "")
            (loginRequest "correct horse" "8.8.8.8" "chrome-on-windows")
            [limitedAlice]) = Authenticated tok)
  /\ snd (login (clock 2040000 "" "")
            (loginRequest "correct horse" "8.8.8.8" "chrome-on-windows")
            [limitedAlice]) <> RateLimited 900.
Proof.
  split; [eexists; vm_compute; reflexivity|].
  refine (rate_limit_lapses (clock 2040000 "" "")
            (loginRequest "correct horse" "8.8.8.8" "chrome-on-windows")
            [limitedAlice] _ 900).
  intros u a [<- | []] Ha.
  assert (Hall : Forall (fun a => a <= now (clock 2040000 "" "")
                                       - RATE_LIMIT_WINDOW_MINUTES * 60 * 1000)
                   (loginAttempts limitedAlice))
    by (repeat constructor; vm_compute; discriminate).
  exact (proj1 (Forall_forall _ _) Hall a Ha).
Defined.

Lemma token_requires_all_checks_witness :
  exists u rest,
    scan (byEmail "alice@example.com") [alice] = u :: rest
    /\ bcryptCompare "correct horse" (passwordHash u) = true
    /\ isEmailVerified u = true
    /\ attemptsInWindow at20min RATE_LIMIT_WINDOW_MINUTES (loginAttempts u)
       < MAX_LOGIN_ATTEMPTS
    /\ suspicious
         (performCognitiveCheck at20min
            (loginRequest "correct horse" "8.8.8.8" "chrome-on-windows") u) = false
    /\ "jwt.u-1.alice@example.com" = jwtSign (userId u) (email u).
Proof.
  refine (token_requires_all_checks at20min
            (loginRequest "correct horse" "8.8.8.8" "chrome-on-windows")
            [alice] _ "jwt.u-1.alice@example.com" _).
  vm_compute. reflexivity.
Defined.

Lemma step_up_names_reason_witness :
  "sid-new" = newUUID at20min /\ ["Login from new location"] <> [].
Proof.
  assert (H : login at20min
                (loginRequest "correct horse" "1.1.1.1" "chrome-on-windows")
                [returningAlice]
              = (fst (login at20min
                        (loginRequest "correct horse" "1.1.1.1" "chrome-on-windows")
                        [returningAlice]),
                 StepUpRequired "sid-new" ["Login from new location"]))
    by (vm_compute; reflexivity).
  destruct (step_up_names_reason _ _ _ _ _ _ H) as (Hsid & Hwhy & _).
  split; assumption.
Defined.

Lemma first_login_not_challenged_witness :
  snd (login at20min (loginRequest "correct horse" "1.1.1.1" "safari-on-ios") [alice])
  = Authenticated "jwt.u-1.alice@example.com".
Proof.
  refine (first_login_not_challenged at20min
            (loginRequest "correct horse" "1.1.1.1" "safari-on-ios") [alice] alice []
            eq_refl eq_refl eq_refl _ eq_refl eq_refl eq_refl eq_refl _).
  - vm_compute. reflexivity.
  - simpl. lia.
Defined.

Lemma signup_verify_round_trip_witness :
  exists uid isNew u',
    snd (signup (clock 0 "123456" "u-1") signupRequest [])
    = AccountCreated uid isNew None
    /\ snd (verifyEmail (clock 300000 "" "") (verifyRequest "123456")
              (fst (signup (clock 0 "123456" "u-1") signupRequest [])))
       = EmailVerified (jwtSign uid "alice@example.com")
    /\ get uid (fst (verifyEmail (clock 300000 "" "") (verifyRequest "123456")
                       (fst (signup (clock 0 "123456" "u-1") signupRequest []))))
       = Some u'
    /\ isEmailVerified u' = true
    /\ otp u' = None
    /\ email u' = "alice@example.com"
    /\ passwordHash u' = bcryptHash "correct horse".
Proof.
  refine (signup_verify_round_trip (clock 0 "123456" "u-1") signupRequest []
            (clock 300000 "" "") (verifyRequest "123456")
            eq_refl eq_refl eq_refl _ eq_refl eq_refl eq_refl _).
  - simpl. lia.
  - vm_compute. discriminate.
Defined.

(** Somebody signs up with the email of [returningAlice]. *)
Lemma signup_overwrites_existing_witness :
  exists item,
    snd (signup (clock 0 "123456" "u-9")
           (mkEvent "alice@example.com" "another password" "" "" "" "" "" "" "" "")
           [returningAlice])
    = AccountCreated "u-1" false None
    /\ get "u-1"
         (fst (signup (clock 0 "123456" "u-9")
                 (mkEvent "alice@example.com" "another password" "" "" "" "" "" "" "" "")
                 [returningAlice])) = Some item
    /\ List.length
         (fst (signup (clock 0 "123456" "u-9")
                 (mkEvent "alice@example.com" "another password" "" "" "" "" "" "" "" "")
                 [returningAlice])) = 1%nat
    /\ createdAt item = 1000
    /\ passwordHash item = "$2a$10$another password"
    /\ isEmailVerified item = false
    /\ loginRecordOf item = ([], None, "", None, None)
    /\ loginAttempts item = []
    /\ pendingSessionId item = None.
Proof.
  refine (signup_overwrites_existing (clock 0 "123456" "u-9")
            (mkEvent "alice@example.com" "another password" "" "" "" "" "" "" "" "")
            [returningAlice] returningAlice [] eq_refl eq_refl eq_refl _ eq_refl).
  simpl. lia.
Defined.

Lemma only_signup_changes_identity_witness :
  map identityOf
    (fst (handle VerifyLoginOTP (clock 4000 "" "")
            (otpRequest "sid-1" "654321" "8.8.8.8" "safari-on-ios") challenged))
  = map identityOf challenged.
Proof.
  refine (only_signup_changes_identity VerifyLoginOTP (clock 4000 "" "")
            (otpRequest "sid-1" "654321" "8.8.8.8" "safari-on-ios") challenged _).
  discriminate.
Defined.

(** A wrong step-up code. *)
Lemma login_record_changes_only_on_success_witness :
  map loginRecordOf
    (fst (handle VerifyLoginOTP (clock 4000 "" "")
            (otpRequest "sid-1" "000000" "8.8.8.8" "safari-on-ios") challenged))
  = map loginRecordOf challenged.
Proof.
  refine (login_record_changes_only_on_success VerifyLoginOTP (clock 4000 "" "")
            (otpRequest "sid-1" "000000" "8.8.8.8" "safari-on-ios") challenged _ _).
  - discriminate.
  - intros tok. vm_compute. discriminate.
Defined.

(** Alice and Bob sign up, then Alice signs up again with another password:
    the table holds two items, Alice's under her first key with the new
    password, and no third one. *)
Lemma reachable_unique_witness :
  map userId twoAccounts = ["u-1"; "u-2"]
  /\ map email twoAccounts = ["alice@example.com"; "bob@example.com"]
  /\ map passwordHash twoAccounts = ["$2a$10$another horse"; "$2a$10$battery staple"]
  /\ snd (signup (clock 2000 "345678" "u-3") aliceSignsUpAgain
            (run [ (Signup, clock 0 "123456" "u-1", signupRequest);
                   (Signup, clock 1000 "234567" "u-2", bobSignupRequest) ] []))
     = AccountCreated "u-1" false None
  /\ keysUnique twoAccounts /\ emailsUnique twoAccounts.
Proof.
  split; [vm_compute; reflexivity|].
  split; [vm_compute; reflexivity|].
  split; [vm_compute; reflexivity|].
  split; [vm_compute; reflexivity|].
  refine (reachable_unique twoAccounts _).
  unfold twoAccounts. eexists. reflexivity.
Defined.

Lemma three_wrong_codes_lock_witness :
  verifyEmail (clock 4000 "" "") (verifyRequest "123456")
    (run (map (fun de => (VerifyEmail, fst de, snd de)) wrongCodes) afterSignup)
  = (run (map (fun de => (VerifyEmail, fst de, snd de)) wrongCodes) afterSignup,
     OtpMaxAttemptsExceeded).
Proof.
  apply (three_wrong_codes_lock "alice@example.com" "123456" (t0 + 300000)
           wrongCodes afterSignup (hd alice afterSignup) []
           (clock 4000 "" "") (verifyRequest "123456")).
  - reflexivity.
  - vm_compute. reflexivity.
  - vm_compute. reflexivity.
  - vm_compute. reflexivity.
  - vm_compute. reflexivity.
  - vm_compute. reflexivity.
  - reflexivity.
  - repeat constructor; try (vm_compute; discriminate).
  - reflexivity.
  - reflexivity.
Defined.

(** The locked signup, a resend whose mail is lost, and the new code. *)
Lemma resend_unlocks_witness :
  attemptsExhausted (otpAttempts (hd alice lockedSignup)) = true
  /\ snd (resendOTP (mkDraws (t0 + 5000) "222222" "" false) (verifyRequest "") lockedSignup)
     = MailFailed
  /\ snd (verifyEmail (clock 6000 "" "") (verifyRequest "222222")
            (fst (resendOTP (mkDraws (t0 + 5000) "222222" "" false)
                    (verifyRequest "") lockedSignup)))
     = EmailVerified "jwt.u-1.alice@example.com".
Proof.
  split; [vm_compute; reflexivity|].
  refine (resend_unlocks (mkDraws (t0 + 5000) "222222" "" false) (verifyRequest "")
            lockedSignup (hd alice lockedSignup) []
            (clock 6000 "" "") (verifyRequest "222222")
            eq_refl _ _ eq_refl eq_refl eq_refl _);
    try (vm_compute; reflexivity).
  vm_compute. discriminate.
Defined.

Lemma step_up_single_use_witness :
  verifyLoginOTP (clock 5000 "" "")
    (otpRequest "sid-1" "654321" "1.1.1.1" "chrome-on-windows")
    (fst (verifyLoginOTP (clock 4000 "" "")
            (otpRequest "sid-1" "654321" "1.1.1.1" "chrome-on-windows") challenged))
  = (fst (verifyLoginOTP (clock 4000 "" "")
            (otpRequest "sid-1" "654321" "1.1.1.1" "chrome-on-windows") challenged),
     InvalidSession).
Proof.
  refine (step_up_single_use (clock 4000 "" "")
            (otpRequest "sid-1" "654321" "1.1.1.1" "chrome-on-windows")
            challenged _ "jwt.u-1.alice@example.com" (hd alice challenged)
            (clock 5000 "" "")
            (otpRequest "sid-1" "654321" "1.1.1.1" "chrome-on-windows")
            _ _ eq_refl eq_refl);
    vm_compute; reflexivity.
Defined.

(** A second login from Paris, answered with the session [sid-2]. *)
Lemma new_step_up_supersedes_witness :
  verifyLoginOTP (clock 6000 "" "")
    (otpRequest "sid-1" "654321" "1.1.1.1" "chrome-on-windows")
    (fst (login (clock 5000 "111111" "sid-2")
            (loginRequest "correct horse" "1.1.1.1" "chrome-on-windows") challenged))
  = (fst (login (clock 5000 "111111" "sid-2")
            (loginRequest "correct horse" "1.1.1.1" "chrome-on-windows") challenged),
     InvalidSession).
Proof.
  refine (new_step_up_supersedes (clock 5000 "111111" "sid-2")
            (loginRequest "correct horse" "1.1.1.1" "chrome-on-windows")
            challenged _ "sid-2" ["Login from new location"]
            (hd alice challenged) [] "sid-1" (clock 6000 "" "")
            (otpRequest "sid-1" "654321" "1.1.1.1" "chrome-on-windows")
            _ _ _ _ eq_refl eq_refl eq_refl);
    try (vm_compute; reflexivity).
  vm_compute. discriminate.
Defined.

(** Three logins at hour 9, a login at hour 21: [6 * 3 < |63 - 27| < 18 * 3]. *)
Lemma unusual_time_criterion_witness :
  isTimeSuspicious (mkDraws (3 * 86400000 + 21 * 3600000) "" "" true)
    [visitAt9 0; visitAt9 1; visitAt9 2]
  = true.
Proof.
  refine (eq_trans
            (unusual_time_criterion (mkDraws (3 * 86400000 + 21 * 3600000) "" "" true)
               [visitAt9 0; visitAt9 1; visitAt9 2] _) _).
  - simpl. lia.
  - vm_compute. reflexivity.
Defined.

Lemma bearer_header_accepted_witness :
  getUser verifyToken bearerHeaders challenged = UserFetched (hd alice challenged).
Proof.
  refine (bearer_header_accepted verifyToken bearerHeaders challenged
            "AUTHORIZATION" "bEARER" "   " "jwt.u-1.alice@example.com" "u-1"
            (hd alice challenged) eq_refl eq_refl eq_refl eq_refl eq_refl eq_refl
            eq_refl _).
  vm_compute. reflexivity.
Defined.

Lemma getUser_needs_verified_token_witness :
  exists token,
    token = snd (schemeAndToken (JsString.trim (getAuthorizationHeader bearerHeaders)))
    /\ JsString.truthy token = true
    /\ verifyToken token = Some (userId (hd alice challenged))
    /\ In (hd alice challenged) challenged.
Proof.
  refine (getUser_needs_verified_token verifyToken bearerHeaders challenged
            (hd alice challenged) _).
  vm_compute. reflexivity.
Defined.

Lemma register_login_round_trip_witness :
  Legacy.login legacyConfig (Some ("bob@example.com", "hunter2hunter2"))
    (fst (Legacy.register legacyConfig t0 (Some ("bob@example.com", "hunter2hunter2")) []))
  = Legacy.Token "jwt.bob@example.com"
  /\ Legacy.register legacyConfig (t0 + 1000) (Some ("bob@example.com", "another"))
       (fst (Legacy.register legacyConfig t0
               (Some ("bob@example.com", "hunter2hunter2")) []))
     = (fst (Legacy.register legacyConfig t0
               (Some ("bob@example.com", "hunter2hunter2")) []),
        Legacy.AlreadyExists).
Proof.
  refine (register_login_round_trip legacyConfig t0 (t0 + 1000) "bob@example.com"
            "hunter2hunter2" "another" [] _ eq_refl eq_refl eq_refl eq_refl _).
  reflexivity.
Defined.

(** Five wrong guesses in five minutes, then the right password. *)
Lemma five_attempts_then_limited_witness :
  login (clock 360000 "" "")
    (loginRequest "correct horse" "8.8.8.8" "chrome-on-windows")
    (run (map (fun de => (Login, fst de, snd de)) fiveTries) [alice])
  = (run (map (fun de => (Login, fst de, snd de)) fiveTries) [alice], RateLimited 900).
Proof.
  refine (five_attempts_then_limited "alice@example.com" fiveTries [alice] alice []
            (clock 360000 "" "")
            (loginRequest "correct horse" "8.8.8.8" "chrome-on-windows")
            eq_refl eq_refl eq_refl eq_refl _ _ eq_refl eq_refl).
  - repeat constructor.
  - intros de Hin. vm_compute in Hin.
    repeat destruct Hin as [<- | Hin]; try (vm_compute; reflexivity). contradiction.
Defined.
